(** * PdfTextExtractor: the page loops of [extractTextFromPDF]

    A shallow embedding of the two drafts of [extractTextFromPDF] in
    [src/pdfTextExtractor.js]: the first draft builds absolutely positioned
    markup (lines 100-167), the second one builds plain text (lines 279-315).

    The PDF engine (pdf.js) is an external collaborator.  It is modelled as an
    interface ([PdfEngine]) whose calls act on an engine state and settle
    either with a value or with an error; the embedding records every engine
    call in a trace.  A concrete engine over a document store
    ([Store.doc_engine]) gives the claims about documents their meaning.

    Both drafts are embedded from the loaded document proxy on (the [pdf] of
    [const pdf = await loadingTask.promise]): the accumulator, the page loop
    and the way the promise settles.  Reading the file and loading the
    document come before and take no part in the properties of the loops;
    they are embedded with the rest of the component in [Widget].

    [Protocol] states the order of the engine calls as a relation, and
    [Objects] embeds the two loops once more over a memory of mutable
    objects, where a write by the loops would show. *)

From Stdlib Require Import String Ascii List Arith ZArith QArith Qround Lia.
From Stdlib Require Import Numbers.DecimalString.
Import ListNotations.

Local Close Scope Q_scope.
Local Open Scope list_scope.
Local Open Scope string_scope.

(** ** JavaScript values *)

(** A thrown or rejected [Error]; the caller ([processPDF]) reads only its
    [message]. *)
Record JsError : Type := { message : string }.

(** How a promise settles (and, for a synchronous block, whether it completed
    or threw). *)
Inductive Settled (A : Type) : Type :=
| Fulfilled (a : A)
| Rejected (e : JsError).
Arguments Fulfilled {A} a.
Arguments Rejected {A} e.

(** JavaScript numbers are used through two operations only: the binary
    minus of [viewport.height - transform[5]] and the conversion to a string
    inside a template literal. *)
Class JsNumber (num : Type) : Type := {
  num_sub : num -> num -> num;
  num_to_string : num -> string
}.

(** Integer-valued numbers (exact below 2^53): minus is exact and the string
    is the decimal numeral, with a leading minus sign when negative. *)
Definition Z_to_string (z : Z) : string := NilEmpty.string_of_int (Z.to_int z).

#[global] Instance JsNumber_Z : JsNumber Z := {
  num_sub := Z.sub;
  num_to_string := Z_to_string
}.

(** ** Data handed out by the engine *)

Section Data.
Variable num : Type.

(** The 6-element array [transform]; [t4] is [transform[4]] and so on. *)
Record Transform : Type := {
  t0 : num; t1 : num; t2 : num; t3 : num; t4 : num; t5 : num
}.

Record TextItem : Type := {
  str : string;
  transform : Transform;
  fontName : string
}.

Record TextContent : Type := { items : list TextItem }.

Record Viewport : Type := { width : num; height : num }.
End Data.

Arguments t0 {num} _.
Arguments t1 {num} _.
Arguments t2 {num} _.
Arguments t3 {num} _.
Arguments t4 {num} _.
Arguments t5 {num} _.
Arguments str {num} _.
Arguments transform {num} _.
Arguments fontName {num} _.
Arguments items {num} _.
Arguments width {num} _.
Arguments height {num} _.

(** The argument object of [page.getViewport({ scale: 1.5 })]. *)
Record ViewportParams : Type := { scale : Q }.

(** ** The engine interface *)

(** [world] is the engine's state (the loaded document and whatever else the
    engine keeps), [pdf] the document proxy and [page] the page proxy.
    [getPage] and [getTextContent] return promises; [getViewport] is
    synchronous.  [numPages] is fixed when the document is loaded. *)
Class PdfEngine (num world pdf page : Type) : Type := {
  numPages : pdf -> nat;
  getPage : pdf -> nat -> world -> world * Settled page;
  getViewport : page -> ViewportParams -> world -> world * Viewport num;
  getTextContent : page -> world -> world * Settled (TextContent num)
}.

(** ** Traces of engine calls *)

Inductive EngineCall (page : Type) : Type :=
| CallGetPage (i : nat)
| CallGetViewport (p : page) (params : ViewportParams)
| CallGetTextContent (p : page).
Arguments CallGetPage {page} i.
Arguments CallGetViewport {page} p params.
Arguments CallGetTextContent {page} p.

(** A call is [Issued] when the code makes it and [Completed] when its
    promise has settled (or, for a synchronous call, when it has returned). *)
Inductive Event (page : Type) : Type :=
| Issued (c : EngineCall page)
| Completed (c : EngineCall page).
Arguments Issued {page} c.
Arguments Completed {page} c.

(** ** The monad of an [async] function body *)

Section Async.
Context {world page : Type}.

(** A computation runs from an engine state, leaves a state and the engine
    calls it made, and either produces a value or throws. *)
Definition Async (A : Type) : Type :=
  world -> world * list (Event page) * Settled A.

Definition ret {A} (a : A) : Async A :=
  fun w => (w, [], Fulfilled a).

Definition bind {A B} (m : Async A) (k : A -> Async B) : Async B :=
  fun w =>
    match m w with
    | (w1, tr1, Fulfilled a) =>
        match k a w1 with
        | (w2, tr2, r) => (w2, (tr1 ++ tr2)%list, r)
        end
    | (w1, tr1, Rejected e) => (w1, tr1, Rejected e)
    end.

(** [await promise]: the call is issued, the body is suspended until the
    promise settles, and a rejection is thrown at the [await]. *)
Definition await {A} (c : EngineCall page)
    (call : world -> world * Settled A) : Async A :=
  fun w =>
    match call w with
    | (w', r) => (w', [Issued c; Completed c], r)
    end.

(** A synchronous engine call. *)
Definition invoke {A} (c : EngineCall page)
    (call : world -> world * A) : Async A :=
  fun w =>
    match call w with
    | (w', a) => (w', [Issued c; Completed c], Fulfilled a)
    end.

Definition final_world {A} (o : world * list (Event page) * Settled A) : world :=
  fst (fst o).
Definition trace_of {A} (o : world * list (Event page) * Settled A)
  : list (Event page) := snd (fst o).
Definition outcome {A} (o : world * list (Event page) * Settled A) : Settled A :=
  snd o.
End Async.

Declare Scope async_scope.
Delimit Scope async_scope with async.
Notation "x <- m ;; k" := (bind m (fun x => k))
  (at level 61, m at next level, right associativity) : async_scope.
Local Open Scope async_scope.

(** ** Strings of the output *)

(** The line feed of a template literal and of ['\n']. *)
Definition LF : string := String (ascii_of_nat 10) EmptyString.
(** The double quote of the [style] attributes. *)
Definition DQ : string := String (ascii_of_nat 34) EmptyString.

Fixpoint spaces (n : nat) : string :=
  match n with
  | 0 => EmptyString
  | S k => String " "%char (spaces k)
  end.

(** [Array.prototype.join] on an array of strings. *)
Definition join (sep : string) (l : list string) : string := String.concat sep l.

(** ** The loop [for (let i = 1; i <= pdf.numPages; i++)] *)

Section Loop.
Context {world page : Type}.

(** [remaining] is [pdf.numPages + 1 - i]; the loop variable [i] goes up by
    one and the accumulator is the string the body appends to. *)
Fixpoint for_pages (remaining i : nat)
    (body : nat -> string -> @Async world page string) (acc : string)
  : @Async world page string :=
  match remaining with
  | 0 => ret acc
  | S k => acc' <- body i acc ;; for_pages k (S i) body acc'
  end.
End Loop.

(** ** Second draft: plain text (lines 279-315) *)

Module TextDraft.
Section WithEngine.
Context {num world pdf page : Type} {E : PdfEngine num world pdf page}.

(** Lines 297-300, one iteration. *)
Definition page_body (doc : pdf) (i : nat) (fullText : string)
  : @Async world page string :=
  pg <- await (CallGetPage i) (getPage doc i) ;;
  textContent <- await (CallGetTextContent pg) (getTextContent pg) ;;
  let textItems := map str (items textContent) in
  ret (fullText ++ (join " " textItems ++ (LF ++ LF))).

(** Lines 294-303 inside the [try]: the promise resolves with [fullText],
    and the [catch] rejects with the error it caught. *)
Definition extractTextFromPDF (doc : pdf) : @Async world page string :=
  for_pages (numPages doc) 1 (page_body doc) EmptyString.
End WithEngine.
End TextDraft.

(** ** First draft: positioned markup (lines 100-167) *)

Module LayoutDraft.
Section WithEngine.
Context {num : Type} {JN : JsNumber num}.
Context {world pdf page : Type} {E : PdfEngine num world pdf page}.

(** The literal of [page.getViewport({ scale: 1.5 })], line 119. *)
Definition viewport_params : ViewportParams := {| scale := 1.5%Q |}.

(** Lines 122-130: the template literal that opens the page container. *)
Definition page_open (viewport : Viewport num) : string :=
  "<div class=" ++ DQ ++ "pdf-page" ++ DQ ++ " style=" ++ DQ ++ LF ++
  spaces 28 ++ "position: relative;" ++ LF ++
  spaces 28 ++ "width: " ++ num_to_string (width viewport) ++ "px;" ++ LF ++
  spaces 28 ++ "height: " ++ num_to_string (height viewport) ++ "px;" ++ LF ++
  spaces 28 ++ "border: 1px solid #ddd;" ++ LF ++
  spaces 28 ++ "margin: 20px auto;" ++ LF ++
  spaces 28 ++ "background: white;" ++ LF ++
  spaces 28 ++ "overflow: hidden;" ++ LF ++
  spaces 24 ++ DQ ++ ">".

(** Lines 133-148: what one [forEach] callback appends to [pageHtml]. *)
Definition item_html (viewport : Viewport num) (item : TextItem num) : string :=
  let x := t4 (transform item) in
  let y := num_sub (height viewport) (t5 (transform item)) in
  let fontSize := t0 (transform item) in
  LF ++
  spaces 32 ++ "<div style=" ++ DQ ++ LF ++
  spaces 36 ++ "position: absolute;" ++ LF ++
  spaces 36 ++ "left: " ++ num_to_string x ++ "px;" ++ LF ++
  spaces 36 ++ "top: " ++ num_to_string y ++ "px;" ++ LF ++
  spaces 36 ++ "font-size: " ++ num_to_string fontSize ++ "px;" ++ LF ++
  spaces 36 ++ "font-family: " ++ fontName item ++ ";" ++ LF ++
  spaces 36 ++ "white-space: nowrap;" ++ LF ++
  spaces 32 ++ DQ ++ ">" ++ LF ++
  spaces 36 ++ str item ++ LF ++
  spaces 32 ++ "</div>".

(** Lines 122-151: [pageHtml] once the container is closed. *)
Definition page_html (viewport : Viewport num) (textContent : TextContent num)
  : string :=
  let pageHtml := page_open viewport in
  let pageHtml :=
    fold_left (fun pageHtml item => pageHtml ++ item_html viewport item)
              (items textContent) pageHtml in
  pageHtml ++ "</div>".

(** Lines 118-152, one iteration. *)
Definition page_body (doc : pdf) (i : nat) (extractedData : string)
  : @Async world page string :=
  pg <- await (CallGetPage i) (getPage doc i) ;;
  viewport <- invoke (CallGetViewport pg viewport_params)
                     (getViewport pg viewport_params) ;;
  textContent <- await (CallGetTextContent pg) (getTextContent pg) ;;
  ret (extractedData ++ page_html viewport textContent).

(** Lines 115-155 inside the [try]: the promise resolves with
    [extractedData], and the [catch] rejects with the error it caught. *)
Definition extractTextFromPDF (doc : pdf) : @Async world page string :=
  for_pages (numPages doc) 1 (page_body doc) EmptyString.
End WithEngine.
End LayoutDraft.

(** ** An engine over a document store *)

(** The engine as the data model describes it: a document is a sequence of
    pages fetched by 1-based index; a page has a viewport for every scale
    and a text content; either fetch may fail.  The store is the engine
    state, so that a write to the document would show in the final state. *)
Module Store.
Section WithNum.
Context {num : Type}.

Record Page : Type := {
  viewportAt : ViewportParams -> Viewport num;
  textContent : Settled (TextContent num)
}.

Definition Document : Type := list (Settled Page).

Record DocumentProxy : Type := { pageCount : nat }.

Definition load (d : Document) : DocumentProxy :=
  {| pageCount := List.length d |}.

Definition invalid_page_request : JsError :=
  {| message := "Invalid page request." |}.

Definition fetch_page (i : nat) (d : Document) : Settled Page :=
  match i with
  | 0 => Rejected invalid_page_request
  | S j =>
      match nth_error d j with
      | Some r => r
      | None => Rejected invalid_page_request
      end
  end.

#[global] Instance doc_engine : PdfEngine num Document DocumentProxy Page := {
  numPages := pageCount;
  getPage := fun _ i d => (d, fetch_page i d);
  getViewport := fun p params d => (d, viewportAt p params);
  getTextContent := fun p d => (d, textContent p)
}.

(** A page whose fetches both succeed. *)
Definition readable_page (viewport : ViewportParams -> Viewport num)
    (its : list (TextItem num)) : Page :=
  {| viewportAt := viewport; textContent := Fulfilled {| items := its |} |}.

(** A page that is fetched but whose text content fails with [e]. *)
Definition unreadable_page (viewport : ViewportParams -> Viewport num)
    (e : JsError) : Page :=
  {| viewportAt := viewport; textContent := Rejected e |}.

(** A page is readable when its text content can be fetched. *)
Definition readable (p : Page) : bool :=
  match textContent p with
  | Fulfilled _ => true
  | Rejected _ => false
  end.

(** The document whose pages are all fetched successfully. *)
Definition document_of (ps : list Page) : Document := map Fulfilled ps.

(** The 1-based index of the first page one of whose fetches fails, with
    the engine's error; [None] when every fetch succeeds. *)
Fixpoint first_failure (d : Document) : option (nat * JsError) :=
  match d with
  | [] => None
  | Rejected e :: _ => Some (1, e)
  | Fulfilled p :: rest =>
      match textContent p with
      | Rejected e => Some (1, e)
      | Fulfilled _ =>
          match first_failure rest with
          | Some (k, e) => Some (S k, e)
          | None => None
          end
      end
  end.

(** What a readable page holds: its viewport at every scale and its items. *)
Definition PageContents : Type :=
  ((ViewportParams -> Viewport num) * list (TextItem num))%type.

Definition page_of (c : PageContents) : Page := readable_page (fst c) (snd c).

(** The document with the given pages, every fetch of which succeeds. *)
Definition readable_document (cs : list PageContents) : Document :=
  document_of (map page_of cs).

(** A page of base size [w] x [h] whose viewport grows with the requested
    scale, [times] being the engine's multiplication. *)
Definition scaled_contents (times : Q -> num -> num) (w h : num)
    (its : list (TextItem num)) : PageContents :=
  (fun params => {| width := times (scale params) w;
                    height := times (scale params) h |},
   its).

Definition scaled_page (times : Q -> num -> num) (w h : num)
    (its : list (TextItem num)) : Page :=
  page_of (scaled_contents times w h its).
End WithNum.
Arguments Page num : clear implicits.
Arguments Document num : clear implicits.
Arguments PageContents num : clear implicits.
End Store.


(** ** What the loops compute on a document store: definitions *)

Module StoreRuns.
Import Store.
Section WithNum.
Context {num : Type} {JN : JsNumber num}.

Definition call_events (c : EngineCall (Page num)) : list (Event (Page num)) :=
  [Issued c; Completed c].

(** The accumulator after the pages of [rest], when every page appends
    [render p tc] and the first failing fetch stops the loop. *)
Fixpoint fold_pages (render : Page num -> TextContent num -> string)
    (rest : Document num) (acc : string) : Settled string :=
  match rest with
  | [] => Fulfilled acc
  | Rejected e :: _ => Rejected e
  | Fulfilled p :: rest' =>
      match textContent p with
      | Rejected e => Rejected e
      | Fulfilled tc => fold_pages render rest' (acc ++ render p tc)
      end
  end.

(** The engine calls of the loop over [rest], whose first page has index
    [i]; [page_calls p] are the calls made on a fetched page. *)
Fixpoint trace_pages (page_calls : Page num -> list (EngineCall (Page num)))
    (rest : Document num) (i : nat) : list (Event (Page num)) :=
  match rest with
  | [] => []
  | Rejected _ :: _ => call_events (CallGetPage i)
  | Fulfilled p :: rest' =>
      (call_events (CallGetPage i) ++ flat_map call_events (page_calls p) ++
       (if readable p then trace_pages page_calls rest' (S i) else []))%list
  end.

Definition text_render (p : Page num) (tc : TextContent num) : string :=
  join " " (map str (items tc)) ++ (LF ++ LF).

Definition text_calls (p : Page num) : list (EngineCall (Page num)) :=
  [CallGetTextContent p].

Definition layout_render (p : Page num) (tc : TextContent num) : string :=
  LayoutDraft.page_html (viewportAt p LayoutDraft.viewport_params) tc.

Definition layout_calls (p : Page num) : list (EngineCall (Page num)) :=
  [CallGetViewport p LayoutDraft.viewport_params; CallGetTextContent p].
End WithNum.
End StoreRuns.

(** ** The output formats in the words of the specification *)

Module Format.
Section WithNum.
Context {num : Type} {JN : JsNumber num}.

(** The page separator of text mode: a blank line. *)
Definition page_separator : string := LF ++ LF.

(** A page's text segment: its item texts joined with a single space. *)
Definition page_segment (its : list (TextItem num)) : string :=
  join " " (map str its).

(** A page-container block of declared width [w] and height [h] around
    [body]. *)
Definition page_container (w h body : string) : string :=
  "<div class=" ++ DQ ++ "pdf-page" ++ DQ ++ " style=" ++ DQ ++ LF ++
  spaces 28 ++ "position: relative;" ++ LF ++
  spaces 28 ++ "width: " ++ w ++ "px;" ++ LF ++
  spaces 28 ++ "height: " ++ h ++ "px;" ++ LF ++
  spaces 28 ++ "border: 1px solid #ddd;" ++ LF ++
  spaces 28 ++ "margin: 20px auto;" ++ LF ++
  spaces 28 ++ "background: white;" ++ LF ++
  spaces 28 ++ "overflow: hidden;" ++ LF ++
  spaces 24 ++ DQ ++ ">" ++ body ++ "</div>".

(** What follows the [top] declaration in a positioned node: the font
    size, the font family and the text. *)
Definition node_tail (size family text : string) : string :=
  spaces 36 ++ "font-size: " ++ size ++ "px;" ++ LF ++
  spaces 36 ++ "font-family: " ++ family ++ ";" ++ LF ++
  spaces 36 ++ "white-space: nowrap;" ++ LF ++
  spaces 32 ++ DQ ++ ">" ++ LF ++
  spaces 36 ++ text ++ LF ++
  spaces 32 ++ "</div>".

(** The end of a positioned node, from the font family on: [family] and
    [text] stand in it as they are. *)
Definition verbatim_part (family text : string) : string :=
  "font-family: " ++ family ++ ";" ++ LF ++
  spaces 36 ++ "white-space: nowrap;" ++ LF ++
  spaces 32 ++ DQ ++ ">" ++ LF ++
  spaces 36 ++ text ++ LF ++
  spaces 32 ++ "</div>".

(** The start of a positioned node, up to the font family. *)
Definition node_head (left top size : string) : string :=
  LF ++
  spaces 32 ++ "<div style=" ++ DQ ++ LF ++
  spaces 36 ++ "position: absolute;" ++ LF ++
  spaces 36 ++ "left: " ++ left ++ "px;" ++ LF ++
  spaces 36 ++ "top: " ++ top ++ "px;" ++ LF ++
  spaces 36 ++ "font-size: " ++ size ++ "px;" ++ LF ++
  spaces 36.

(** An absolutely positioned text node at [(left, top)]. *)
Definition positioned_node (left top size family text : string) : string :=
  LF ++
  spaces 32 ++ "<div style=" ++ DQ ++ LF ++
  spaces 36 ++ "position: absolute;" ++ LF ++
  spaces 36 ++ "left: " ++ left ++ "px;" ++ LF ++
  spaces 36 ++ "top: " ++ top ++ "px;" ++ LF ++
  node_tail size family text.

(** The node of an item on a viewport of height [H]. *)
Definition item_node (H : num) (it : TextItem num) : string :=
  positioned_node (num_to_string (t4 (transform it)))
                  (num_to_string (num_sub H (t5 (transform it))))
                  (num_to_string (t0 (transform it)))
                  (fontName it) (str it).

(** The block of a page whose viewport is [vp]. *)
Definition page_block (vp : Viewport num) (its : list (TextItem num)) : string :=
  page_container (num_to_string (width vp)) (num_to_string (height vp))
                 (String.concat EmptyString (map (item_node (height vp)) its)).
End WithNum.
End Format.

(** ** Properties of traces *)

Module Trace.
Section WithPage.
Context {page : Type}.

(** Every call completes before the next one is issued. *)
Inductive sequential : list (Event page) -> Prop :=
| sequential_nil : sequential []
| sequential_call (c : EngineCall page) (tr : list (Event page)) :
    sequential tr -> sequential (Issued c :: Completed c :: tr).

(** The largest number of calls in flight at any point of [tr], starting
    with [cur] of them. *)
Fixpoint max_in_flight (cur : nat) (tr : list (Event page)) : nat :=
  match tr with
  | [] => cur
  | Issued _ :: tr' => Nat.max cur (max_in_flight (S cur) tr')
  | Completed _ :: tr' => Nat.max cur (max_in_flight (Nat.pred cur) tr')
  end.

(** A call without the page proxy it is made on. *)
Inductive CallKind : Type :=
| KGetPage (i : nat)
| KGetViewport (params : ViewportParams)
| KGetTextContent.

Definition kind_of (c : EngineCall page) : CallKind :=
  match c with
  | CallGetPage i => KGetPage i
  | CallGetViewport _ params => KGetViewport params
  | CallGetTextContent _ => KGetTextContent
  end.

(** The calls of a trace in the order they are issued. *)
Fixpoint issued (tr : list (Event page)) : list CallKind :=
  match tr with
  | [] => []
  | Issued c :: tr' => kind_of c :: issued tr'
  | Completed _ :: tr' => issued tr'
  end.

(** The page indices of the [getPage] calls, in the order they are issued. *)
Fixpoint fetched_indices (tr : list (Event page)) : list nat :=
  match tr with
  | [] => []
  | Issued (CallGetPage i) :: tr' => i :: fetched_indices tr'
  | _ :: tr' => fetched_indices tr'
  end.

(** [getPage(i), getTextContent] for [n] pages from index [i]. *)
Definition text_schedule (i n : nat) : list CallKind :=
  flat_map (fun j => [KGetPage j; KGetTextContent]) (seq i n).

(** [getPage(i), getViewport, getTextContent] for [n] pages from index [i]. *)
Definition layout_schedule (i n : nat) : list CallKind :=
  flat_map (fun j => [KGetPage j; KGetViewport LayoutDraft.viewport_params;
                      KGetTextContent]) (seq i n).

(** A trace follows the schedule [sched]: its calls complete one after the
    other, they are the first calls of the schedule, and all of it when the
    extraction is fulfilled. *)
Definition follows {A : Type} (sched : list CallKind)
    (tr : list (Event page)) (r : Settled A) : Prop :=
  sequential tr /\
  (exists rest, sched = (issued tr ++ rest)%list) /\
  match r with
  | Fulfilled _ => issued tr = sched
  | Rejected _ => True
  end.
End WithPage.
Arguments CallKind : clear implicits.
End Trace.

(** The calls made on a fetched page are no page fetches. *)
Definition no_page_fetch {num : Type}
    (page_calls : Store.Page num -> list (EngineCall (Store.Page num))) : Prop :=
  forall p,
    Trace.fetched_indices (flat_map StoreRuns.call_events (page_calls p)) = [].

(** "A failed extraction's error references the failing page": the index of
    the first page one of whose fetches fails can be read off the error the
    extraction rejects with. *)
Definition names_failing_page
    (extract : Store.DocumentProxy ->
               @Async (Store.Document Z) (Store.Page Z) string) : Prop :=
  exists page_of_error : JsError -> nat,
    forall (d : Store.Document Z) (k : nat) (e : JsError),
      Store.first_failure d = Some (k, e) ->
      exists e', outcome (extract (Store.load d) d) = Rejected e' /\
                 page_of_error e' = k.

(** The engine's fetches leave its state as it was. *)
Definition read_only {num world pdf page : Type} (E : PdfEngine num world pdf page)
  : Prop :=
  (forall doc i w, fst (getPage doc i w) = w) /\
  (forall p params w, fst (getViewport p params w) = w) /\
  (forall p w, fst (getTextContent p w) = w).

(** ** Concrete documents *)

Module Scenario.
Import Store.
Local Open Scope Z_scope.

(** [{text: "Hello", transform: [12,0,0,12,10,780]}] *)
Definition hello (family : string) : TextItem Z :=
  {| str := "Hello";
     transform := {| t0 := 12; t1 := 0; t2 := 0; t3 := 12; t4 := 10; t5 := 780 |};
     fontName := family |}.

(** [{text: "World", transform: [10,0,0,10,5,100]}] *)
Definition world (family : string) : TextItem Z :=
  {| str := "World";
     transform := {| t0 := 10; t1 := 0; t2 := 0; t3 := 10; t4 := 5; t5 := 100 |};
     fontName := family |}.

(** Page 1, on a viewport of height 792; page 2, on one of height 500. *)
Definition page1 (w : Z) (family : string) : PageContents Z :=
  (fun _ => {| width := w; height := 792 |}, [hello family]).
Definition page2 (w : Z) (family : string) : PageContents Z :=
  (fun _ => {| width := w; height := 500 |}, [world family]).

Definition document (w1 w2 : Z) (f1 f2 : string) : Document Z :=
  readable_document [page1 w1 f1; page2 w2 f2].

Definition sample : Document Z := document 612 400 "g_d0_f1" "g_d0_f2".

(** Documents one of whose fetches fails with [fetch_error]. *)
Definition fetch_error : JsError := {| message := "Transport destroyed" |}.

Definition fails_at_page_1 : Document Z :=
  [Rejected fetch_error; Fulfilled (page_of (page2 400 "g_d0_f2"))].

Definition fails_at_page_2 : Document Z :=
  [Fulfilled (page_of (page1 612 "g_d0_f1")); Rejected fetch_error].

Definition text_fails_at_page_2 : Document Z :=
  [Fulfilled (page_of (page1 612 "g_d0_f1"));
   Fulfilled (unreadable_page (fun _ => {| width := 400; height := 500 |})
                              fetch_error);
   Fulfilled (page_of (page2 400 "g_d0_f2"))].

(** An item whose text and font name hold markup-significant characters. *)
Definition markup_item : TextItem Z :=
  {| str := "a < b && c > d";
     transform := {| t0 := 9; t1 := 0; t2 := 0; t3 := 9; t4 := 72; t5 := 700 |};
     fontName := "Times<New>&Roman" |}.

Definition markup_document : Document Z :=
  readable_document
    [page1 612 "g_d0_f1";
     (fun _ => {| width := 918; height := 1188 |}, [world "g_d0_f2"; markup_item])].

(** A US Letter page (612 x 792 points) whose viewport is its size times
    the requested scale. *)
Definition times_Z (q : Q) (z : Z) : Z := Qfloor (q * inject_Z z)%Q.

Definition letter_page : Page Z := scaled_page times_Z 612 792 [hello "g_d0_f1"].

Definition letter_document : Document Z := document_of [letter_page].

(** An engine that is not read-only: its state counts the [getPage] calls
    and the text it hands out depends on the count. *)
Definition counting_engine : PdfEngine Z nat unit unit :=
  {| numPages := fun _ => 1%nat;
     getPage := fun _ _ n => (S n, Fulfilled tt);
     getViewport := fun _ _ n => (n, {| width := 612; height := 792 |});
     getTextContent := fun _ n =>
       (n, Fulfilled {| items := repeat (hello "g_d0_f1") n |}) |}.
End Scenario.

(** ** Calls and promises *)

Section Promises.
Context {world page : Type}.

(** The promise an engine call returns: the call it stands for and how it
    will settle. *)
Record Promise (A : Type) : Type := {
  promisedCall : EngineCall page;
  settlement : Settled A
}.
Arguments promisedCall {A} _.
Arguments settlement {A} _.

(** An engine call without [await]: the call is issued and its promise is
    handed back at once. *)
Definition issue {A} (c : EngineCall page) (call : world -> world * Settled A)
  : @Async world page (Promise A) :=
  fun w =>
    match call w with
    | (w', r) => (w', [Issued c], Fulfilled {| promisedCall := c; settlement := r |})
    end.

(** [await] on a promise: the body goes on when the promise has settled, and
    a rejection is thrown. *)
Definition settle {A} (p : Promise A) : @Async world page A :=
  fun w => (w, [Completed (promisedCall p)], settlement p).

(** How a settled run ended: [None] when fulfilled, the error when rejected. *)
Definition rejection {A} (r : Settled A) : option JsError :=
  match r with
  | Fulfilled _ => None
  | Rejected e => Some e
  end.
End Promises.
Arguments promisedCall {page A} _.
Arguments settlement {page A} _.

(** ** The order of the engine calls, in the words of the specification *)

(** Page by page, in ascending order: the page is fetched, then (in the
    layout draft) its viewport is asked for, then its text content is fetched
    from the page proxy just obtained, every call in the state the call
    before it left; the next page is fetched only when that is done, and the
    first call that is rejected is the last call made. *)
Module Protocol.
Section WithEngine.
Context {num world pdf page : Type} {E : PdfEngine num world pdf page}.

(** [text_run doc n i w tr w' stop]: the calls [tr] for the [n] pages from
    index [i] on, from the state [w] to the state [w']; [stop] is the error
    of the rejected call, or [None] when all [n] pages were done. *)
Inductive text_run (doc : pdf)
  : nat -> nat -> world -> list (Event page) -> world -> option JsError -> Prop :=
| text_done (i : nat) (w : world) : text_run doc 0 i w [] w None
| text_page_rejected (n i : nat) (w w1 : world) (e : JsError) :
    getPage doc i w = (w1, Rejected e) ->
    text_run doc (S n) i w
             [Issued (CallGetPage i); Completed (CallGetPage i)] w1 (Some e)
| text_content_rejected (n i : nat) (w w1 w2 : world) (pg : page) (e : JsError) :
    getPage doc i w = (w1, Fulfilled pg) ->
    getTextContent pg w1 = (w2, Rejected e) ->
    text_run doc (S n) i w
             [Issued (CallGetPage i); Completed (CallGetPage i);
              Issued (CallGetTextContent pg); Completed (CallGetTextContent pg)]
             w2 (Some e)
| text_page_done (n i : nat) (w w1 w2 w3 : world) (pg : page)
    (tc : TextContent num) (tr : list (Event page)) (stop : option JsError) :
    getPage doc i w = (w1, Fulfilled pg) ->
    getTextContent pg w1 = (w2, Fulfilled tc) ->
    text_run doc n (S i) w2 tr w3 stop ->
    text_run doc (S n) i w
             (Issued (CallGetPage i) :: Completed (CallGetPage i)
                :: Issued (CallGetTextContent pg)
                :: Completed (CallGetTextContent pg) :: tr)
             w3 stop.

Inductive layout_run (doc : pdf)
  : nat -> nat -> world -> list (Event page) -> world -> option JsError -> Prop :=
| layout_done (i : nat) (w : world) : layout_run doc 0 i w [] w None
| layout_page_rejected (n i : nat) (w w1 : world) (e : JsError) :
    getPage doc i w = (w1, Rejected e) ->
    layout_run doc (S n) i w
               [Issued (CallGetPage i); Completed (CallGetPage i)] w1 (Some e)
| layout_content_rejected (n i : nat) (w w1 w2 w3 : world) (pg : page)
    (viewport : Viewport num) (e : JsError) :
    getPage doc i w = (w1, Fulfilled pg) ->
    getViewport pg {| scale := 1.5%Q |} w1 = (w2, viewport) ->
    getTextContent pg w2 = (w3, Rejected e) ->
    layout_run doc (S n) i w
               [Issued (CallGetPage i); Completed (CallGetPage i);
                Issued (CallGetViewport pg {| scale := 1.5%Q |});
                Completed (CallGetViewport pg {| scale := 1.5%Q |});
                Issued (CallGetTextContent pg); Completed (CallGetTextContent pg)]
               w3 (Some e)
| layout_page_done (n i : nat) (w w1 w2 w3 w4 : world) (pg : page)
    (viewport : Viewport num) (tc : TextContent num)
    (tr : list (Event page)) (stop : option JsError) :
    getPage doc i w = (w1, Fulfilled pg) ->
    getViewport pg {| scale := 1.5%Q |} w1 = (w2, viewport) ->
    getTextContent pg w2 = (w3, Fulfilled tc) ->
    layout_run doc n (S i) w3 tr w4 stop ->
    layout_run doc (S n) i w
               (Issued (CallGetPage i) :: Completed (CallGetPage i)
                  :: Issued (CallGetViewport pg {| scale := 1.5%Q |})
                  :: Completed (CallGetViewport pg {| scale := 1.5%Q |})
                  :: Issued (CallGetTextContent pg)
                  :: Completed (CallGetTextContent pg) :: tr)
               w4 stop.

(** Every page of [doc] can be fetched and read in the state [w], and none
    of these calls changes [w]. *)
Definition readable_at (doc : pdf) (w : world) : Prop :=
  forall i, 1 <= i <= numPages doc ->
    exists pg tc,
      getPage doc i w = (w, Fulfilled pg) /\
      getTextContent pg w = (w, Fulfilled tc) /\
      forall params, fst (getViewport pg params w) = w.

(** Two pages asked for before either has settled: what the loops do not
    do. *)
Definition fetch_ahead (doc : pdf) : @Async world page (page * page) :=
  first <- issue (CallGetPage 1) (getPage doc 1) ;;
  second <- issue (CallGetPage 2) (getPage doc 2) ;;
  pg1 <- settle first ;;
  pg2 <- settle second ;;
  ret (pg1, pg2).
End WithEngine.
End Protocol.

(** ** The loops over shared objects *)

(** The same two loops, with the objects the engine hands out kept in a
    memory of mutable objects and reached through references, so that a
    write to a text content, an items array, an item, a transform or a
    viewport shows in the memory.  The strings and arrays the loops build
    themselves ([fullText], [textItems], [pageHtml]) are values.  The engine
    hands out objects of the shapes below; a reference to no object or to an
    object of another shape makes the read throw. *)
Module Objects.

Definition Ref : Type := nat.

Section Memory.
Context {num : Type}.

Inductive Cell : Type :=
| TextContentObject (array : Ref)
| ArrayObject (elements : list Ref)
| ItemObject (text : string) (matrix : Ref) (family : string)
| TransformObject (entries : Transform num)
| ViewportObject (viewport : Viewport num).

Definition Heap : Type := list (Ref * Cell).

Fixpoint lookup (r : Ref) (h : Heap) : option Cell :=
  match h with
  | [] => None
  | (r', c) :: h' => if Nat.eqb r r' then Some c else lookup r h'
  end.

(** An assignment to the object at [r]. *)
Fixpoint update (r : Ref) (c : Cell) (h : Heap) : Heap :=
  match h with
  | [] => []
  | (r', c') :: h' =>
      if Nat.eqb r r' then (r', c) :: h' else (r', c') :: update r c h'
  end.

(** The engine's own state and the objects. *)
Record Memory (state : Type) : Type := {
  engineState : state;
  heap : Heap
}.
End Memory.
Arguments Cell num : clear implicits.
Arguments Heap num : clear implicits.
Arguments Memory num state : clear implicits.
Arguments engineState {num state} _.
Arguments heap {num state} _.

(** The engine, handing out references: [getViewport] the viewport object,
    [getTextContent] the text content object. *)
Class RefEngine (num state pdf page : Type) : Type := {
  numPages : pdf -> nat;
  getPage : pdf -> nat -> Memory num state -> Memory num state * Settled page;
  getViewport : page -> ViewportParams -> Memory num state
                -> Memory num state * Ref;
  getTextContent : page -> Memory num state -> Memory num state * Settled Ref
}.

(** Every effect of an engine call on the memory is within [R]. *)
Definition engine_within {num state pdf page : Type}
    (R : Memory num state -> Memory num state -> Prop)
    (E : RefEngine num state pdf page) : Prop :=
  (forall doc i m, R m (fst (getPage doc i m))) /\
  (forall p params m, R m (fst (getViewport p params m))) /\
  (forall p m, R m (fst (getTextContent p m))).

(** The engine's calls leave the memory as it was. *)
Definition read_only {num state pdf page : Type}
    (E : RefEngine num state pdf page) : Prop :=
  (forall doc i m, fst (getPage doc i m) = m) /\
  (forall p params m, fst (getViewport p params m) = m) /\
  (forall p m, fst (getTextContent p m) = m).

Section Access.
Context {num state page : Type}.
(** A step of a loop over the memory. *)
Definition M (A : Type) : Type := @Async (Memory num state) page A.

Definition type_error : JsError :=
  {| message := "Cannot read properties of undefined" |}.

Definition throw {A} (e : JsError) : M A := fun m => (m, [], Rejected e).

(** Reading the object a reference points to. *)
Definition read (r : Ref) : M (Cell num) :=
  fun m =>
    match lookup r (heap m) with
    | Some c => (m, [], Fulfilled c)
    | None => (m, [], Rejected type_error)
    end.

(** Writing an object: what the loops never do. *)
Definition write (r : Ref) (c : Cell num) : M unit :=
  fun m =>
    ({| engineState := engineState m; heap := update r c (heap m) |},
     [], Fulfilled tt).

(** [textContent.items], as the elements of the array. *)
Definition get_items (textContent : Ref) : M (list Ref) :=
  c <- read textContent ;;
  match c with
  | TextContentObject array =>
      a <- read array ;;
      match a with
      | ArrayObject elements => ret elements
      | _ => throw type_error
      end
  | _ => throw type_error
  end.

(** [item.str] *)
Definition get_str (item : Ref) : M string :=
  c <- read item ;;
  match c with
  | ItemObject text _ _ => ret text
  | _ => throw type_error
  end.

(** [const { str, transform, fontName } = item] with the entries of
    [transform]. *)
Definition get_item (item : Ref) : M (TextItem num) :=
  c <- read item ;;
  match c with
  | ItemObject text matrix family =>
      t <- read matrix ;;
      match t with
      | TransformObject entries =>
          ret {| str := text; transform := entries; fontName := family |}
      | _ => throw type_error
      end
  | _ => throw type_error
  end.

(** [viewport.width] and [viewport.height] *)
Definition get_viewport (viewport : Ref) : M (Viewport num) :=
  c <- read viewport ;;
  match c with
  | ViewportObject v => ret v
  | _ => throw type_error
  end.

(** [array.map(f)]: the callback runs on the elements in order. *)
Fixpoint array_map {A} (f : Ref -> M A) (elements : list Ref) : M (list A) :=
  match elements with
  | [] => ret []
  | x :: rest =>
      y <- f x ;;
      ys <- array_map f rest ;;
      ret (y :: ys)
  end.

(** Whatever the memory, the step leaves one that is [R]-related to it. *)
Definition stays {A} (R : Memory num state -> Memory num state -> Prop)
    (c : M A) : Prop :=
  forall m, R m (final_world (c m)).

(** [array.forEach(f)] with a callback that appends to [pageHtml]. *)
Fixpoint array_forEach (f : string -> Ref -> M string) (elements : list Ref)
    (pageHtml : string) : M string :=
  match elements with
  | [] => ret pageHtml
  | x :: rest =>
      pageHtml <- f pageHtml x ;;
      array_forEach f rest pageHtml
  end.
End Access.

Module Text.
Section WithEngine.
Context {num state pdf page : Type} {E : RefEngine num state pdf page}.

(** Lines 297-300. *)
Definition page_body (doc : pdf) (i : nat) (fullText : string)
  : @Async (Memory num state) page string :=
  pg <- await (CallGetPage i) (getPage doc i) ;;
  textContent <- await (CallGetTextContent pg) (getTextContent pg) ;;
  elements <- get_items textContent ;;
  textItems <- array_map get_str elements ;;
  ret (fullText ++ (join " " textItems ++ (LF ++ LF))).

(** Lines 294-303. *)
Definition extractTextFromPDF (doc : pdf)
  : @Async (Memory num state) page string :=
  for_pages (numPages doc) 1 (page_body doc) EmptyString.

(** A loop that turns the items array around in place before it reads it
    ([textContent.items.reverse()]): what the text draft does not do. *)
Definition reversing_body (doc : pdf) (i : nat) (fullText : string)
  : @Async (Memory num state) page string :=
  pg <- await (CallGetPage i) (getPage doc i) ;;
  textContent <- await (CallGetTextContent pg) (getTextContent pg) ;;
  c <- read textContent ;;
  match c with
  | TextContentObject array =>
      elements <- get_items textContent ;;
      _ <- write array (ArrayObject (rev elements)) ;;
      elements <- get_items textContent ;;
      textItems <- array_map get_str elements ;;
      ret (fullText ++ (join " " textItems ++ (LF ++ LF)))
  | _ => throw type_error
  end.

Definition reversing (doc : pdf) : @Async (Memory num state) page string :=
  for_pages (numPages doc) 1 (reversing_body doc) EmptyString.
End WithEngine.
End Text.

Module Layout.
Section WithEngine.
Context {num : Type} {JN : JsNumber num}.
Context {state pdf page : Type} {E : RefEngine num state pdf page}.

(** Lines 133-148: the [forEach] callback; [viewport.height] is read for
    every item. *)
Definition append_item (viewport : Ref) (pageHtml : string) (item : Ref)
  : @Async (Memory num state) page string :=
  it <- get_item item ;;
  v <- get_viewport viewport ;;
  ret (pageHtml ++ LayoutDraft.item_html v it).

(** Lines 118-152. *)
Definition page_body (doc : pdf) (i : nat) (extractedData : string)
  : @Async (Memory num state) page string :=
  pg <- await (CallGetPage i) (getPage doc i) ;;
  viewport <- invoke (CallGetViewport pg LayoutDraft.viewport_params)
                     (getViewport pg LayoutDraft.viewport_params) ;;
  textContent <- await (CallGetTextContent pg) (getTextContent pg) ;;
  v <- get_viewport viewport ;;
  let pageHtml := LayoutDraft.page_open v in
  elements <- get_items textContent ;;
  pageHtml <- array_forEach (append_item viewport) elements pageHtml ;;
  let pageHtml := pageHtml ++ "</div>" in
  ret (extractedData ++ pageHtml).

(** Lines 115-155. *)
Definition extractTextFromPDF (doc : pdf)
  : @Async (Memory num state) page string :=
  for_pages (numPages doc) 1 (page_body doc) EmptyString.
End WithEngine.
End Layout.

(** A two-page document as objects: page [p] has its text content at
    [10 p], the items array at [10 p + 1], its first item at [10 p + 2] with
    the transform at [10 p + 3], and its viewport at [10 p + 4]; page 1 has a
    second item at 15. *)
Module Sample.
Local Open Scope Z_scope.

Definition objects : Heap Z :=
  [(10%nat, TextContentObject 11%nat);
   (11%nat, ArrayObject [12%nat; 15%nat]);
   (12%nat, ItemObject "Hello" 13%nat "g_d0_f1");
   (13%nat, TransformObject
              {| t0 := 12; t1 := 0; t2 := 0; t3 := 12; t4 := 10; t5 := 780 |});
   (14%nat, ViewportObject {| width := 612; height := 792 |});
   (15%nat, ItemObject "there" 13%nat "g_d0_f1");
   (20%nat, TextContentObject 21%nat);
   (21%nat, ArrayObject [22%nat]);
   (22%nat, ItemObject "World" 23%nat "g_d0_f2");
   (23%nat, TransformObject
              {| t0 := 10; t1 := 0; t2 := 0; t3 := 10; t4 := 5; t5 := 100 |});
   (24%nat, ViewportObject {| width := 400; height := 500 |})].

Definition memory : Memory Z unit := {| engineState := tt; heap := objects |}.

(** The engine: pages are their indices, and every call hands out the same
    objects again. *)
Definition engine : RefEngine Z unit nat nat :=
  {| numPages := fun n => n;
     getPage := fun n i m =>
       (m, if andb (Nat.leb 1 i) (Nat.leb i n) then Fulfilled i
           else Rejected {| message := "Invalid page request." |});
     getViewport := fun p _ m => (m, (10 * p + 4)%nat);
     getTextContent := fun p m => (m, Fulfilled (10 * p)%nat) |}.
End Sample.
End Objects.

(** The page indices of the [getPage] calls among [kinds]. *)
Fixpoint requested_pages (kinds : list Trace.CallKind) : list nat :=
  match kinds with
  | [] => []
  | Trace.KGetPage i :: kinds' => i :: requested_pages kinds'
  | _ :: kinds' => requested_pages kinds'
  end.

(** The texts of the pages of a document, page by page. *)
Definition page_texts {num : Type} (cs : list (Store.PageContents num))
  : list (list string) :=
  map (fun c => map str (snd c)) cs.

(** Two items that agree on what the layout draft reads: the text, the font
    name and the entries 0, 4 and 5 of the transform. *)
Definition same_placement {num : Type} (a b : TextItem num) : Prop :=
  str a = str b /\ fontName a = fontName b /\
  t0 (transform a) = t0 (transform b) /\
  t4 (transform a) = t4 (transform b) /\
  t5 (transform a) = t5 (transform b).

(** Two pages that agree on the viewport at the scale of the layout draft
    and whose items agree as above. *)
Definition same_layout_input {num : Type} (a b : Store.PageContents num) : Prop :=
  fst a LayoutDraft.viewport_params = fst b LayoutDraft.viewport_params /\
  Forall2 same_placement (snd a) (snd b).

(** A readable page without text items. *)
Definition itemless {num : Type} (viewport : ViewportParams -> Viewport num)
  : Store.PageContents num := (viewport, []).

(** ** The component around the loops (lines 7-98 and 171-179) *)

(** A resource URL, as [PDF] and [PDFWorker] are. *)
Definition Url : Type := string.

(** The argument of [new ShowToastEvent({ title, message, variant })]. *)
Module ShowToastEvent.
Record t : Type := { title : string; message : string; variant : string }.
End ShowToastEvent.

(** The global [document], and the documents of frames. *)
Inductive DomDocument : Type :=
| document
| frameDocument (frame : nat).

(** The argument object of [pdfjsLib.getDocument]. *)
Record DocumentParams : Type := {
  data : list Byte.byte;
  ownerDocument : DomDocument;
  disableAutoFetch : bool;
  disableStream : bool
}.

(** How [fileReader.readAsArrayBuffer(file)] ends: [onload] with the
    [result], or [onerror]. *)
Inductive ReadOutcome : Type :=
| ReadLoaded (result : list Byte.byte)
| ReadFailed.

(** The object [pdfjsLib.GlobalWorkerOptions]. *)
Record WorkerOptions : Type := { workerSrc : option Url }.

(** The object [window.pdfjsLib]: its [GlobalWorkerOptions] ([None] when the
    object has no such property) and the [ownerDocument] property that
    [patchPDFJSForLWC] looks at. *)
Record PdfjsLib : Type := {
  GlobalWorkerOptions : option WorkerOptions;
  libOwnerDocument : option DomDocument
}.

(** The globals the component reads and writes: [window.pdfjsLib]
    ([None] when undefined) and whether [globalThis] is defined. *)
Record Window : Type := {
  windowPdfjsLib : option PdfjsLib;
  hasGlobalThis : bool
}.

(** [this.pdfjsLib] is [null] or a reference to the object
    [window.pdfjsLib]; the object itself stays in the [Window]. *)
Inductive LibRef : Type := WindowPdfjsLib.

(** The fields of the component. *)
Record Component : Type := {
  isLoading : bool;
  extractedText : string;
  pdfjsLib : option LibRef
}.

(** What the platform around the component does: the [type] of a [File],
    the [FileReader], [pdfjsLib.getDocument] with the promise of its loading
    task, [loadScript] and the two resource URLs. *)
Class Platform (world file pdf : Type) : Type := {
  fileType : file -> string;
  readAsArrayBuffer : file -> world -> world * ReadOutcome;
  getDocument : DocumentParams -> world -> world * Settled pdf;
  loadScript : Url -> Window -> Window * Settled unit;
  PDF : Url;
  PDFWorker : Url
}.

(** What the component does to the outside, in the order it does it. *)
Inductive HostEvent (file page : Type) : Type :=
| FileRead (f : file)
| DocumentRequested (params : DocumentParams)
| EngineEvent (ev : Event page)
| ScriptLoad (url : Url)
| ConsoleError (label : string) (e : JsError)
| ToastShown (toast : ShowToastEvent.t).
Arguments FileRead {file page} f.
Arguments DocumentRequested {file page} params.
Arguments EngineEvent {file page} ev.
Arguments ScriptLoad {file page} url.
Arguments ConsoleError {file page} label e.
Arguments ToastShown {file page} toast.

Module Widget.
Section WithPlatform.
Context {num world file pdf page : Type}.
Context {E : PdfEngine num world pdf page} {P : Platform world file pdf}.

(** The loop of the draft at hand: [TextDraft.extractTextFromPDF] or
    [LayoutDraft.extractTextFromPDF]. *)
Variable pages : pdf -> @Async world page string.

Definition Log : Type := list (HostEvent file page).

(** Lines 171-179. *)
Definition showToast (title message variant : string) : HostEvent file page :=
  ToastShown {| ShowToastEvent.title := title;
                ShowToastEvent.message := message;
                ShowToastEvent.variant := variant |}.

(** Lines 106-112 and 285-291: the argument of [getDocument]. *)
Definition document_params (typedArray : list Byte.byte) : DocumentParams :=
  {| data := typedArray;
     ownerDocument := document;
     disableAutoFetch := true;
     disableStream := true |}.

(** Lines 100-167 and 279-315, the whole function: the promise it returns
    rejects with [Error('Failed to read file')] from [onerror], and from
    [onload] settles as the [try] block does. *)
Definition extractTextFromPDF (f : file) (w : world)
  : world * Log * Settled string :=
  match readAsArrayBuffer f w with
  | (w1, ReadFailed) =>
      (w1, [FileRead f], Rejected {| message := "Failed to read file" |})
  | (w1, ReadLoaded result) =>
      let typedArray := result in
      let params := document_params typedArray in
      match getDocument params w1 with
      | (w2, Rejected error) =>
          (w2, [FileRead f; DocumentRequested params], Rejected error)
      | (w2, Fulfilled doc) =>
          match pages doc w2 with
          | (w3, tr, r) =>
              (w3,
               ([FileRead f; DocumentRequested params] ++ map EngineEvent tr)%list,
               r)
          end
      end
  end.

(** Lines 80-98. *)
Definition processPDF (f : file) (this : Component) (w : world)
  : Component * world * Log :=
  match pdfjsLib this with
  | None =>
      (this, w,
       [showToast "Error" "PDF.js library not loaded yet. Please try again."
                  "error"])
  | Some lib =>
      let this := {| isLoading := true;
                     extractedText := extractedText this;
                     pdfjsLib := Some lib |} in
      let this := {| isLoading := isLoading this;
                     extractedText := EmptyString;
                     pdfjsLib := Some lib |} in
      match extractTextFromPDF f w with
      | (w', log, Fulfilled text) =>
          let this := {| isLoading := isLoading this;
                         extractedText := text;
                         pdfjsLib := Some lib |} in
          ({| isLoading := false;
              extractedText := extractedText this;
              pdfjsLib := Some lib |},
           w', log)
      | (w', log, Rejected error) =>
          ({| isLoading := false;
              extractedText := extractedText this;
              pdfjsLib := Some lib |},
           w',
           (log ++ [ConsoleError "Error extracting text:" error;
                    showToast "Error"
                      ("Failed to extract text from PDF. " ++ message error)
                      "error"])%list)
      end
  end.

(** Lines 53-60, the [change] listener without its last line (the removal
    of the input from the page): [file && file.type === 'application/pdf'].
    [selected] is [event.target.files[0]], [None] when it is undefined. *)
Definition onFileSelected (selected : option file) (this : Component) (w : world)
  : Component * world * Log :=
  match selected with
  | Some f =>
      if (fileType f =? "application/pdf")%string
      then processPDF f this w
      else (this, w, [showToast "Error" "Please upload a PDF file" "error"])
  | None => (this, w, [showToast "Error" "Please upload a PDF file" "error"])
  end.

(** Lines 35-43.  Reading [window.pdfjsLib.ownerDocument] throws when
    [window.pdfjsLib] is undefined. *)
Definition patchPDFJSForLWC (win : Window) : Settled Window :=
  match windowPdfjsLib win with
  | None =>
      Rejected
        {| message := "Cannot read properties of undefined (reading 'ownerDocument')" |}
  | Some lib =>
      let win :=
        match libOwnerDocument lib with
        | None =>
            {| windowPdfjsLib :=
                 Some {| GlobalWorkerOptions := GlobalWorkerOptions lib;
                         libOwnerDocument := Some document |};
               hasGlobalThis := hasGlobalThis win |}
        | Some _ => win
        end in
      Fulfilled
        (if hasGlobalThis win then win
         else {| windowPdfjsLib := windowPdfjsLib win; hasGlobalThis := true |})
  end.

(** Lines 29-32, the [catch] of [initializePDFJS]. *)
Definition load_failed (error : JsError) : Log :=
  [ConsoleError "Error loading PDF.js" error;
   showToast "Error" "Failed to load PDF library" "error"].

(** Lines 22-32: [initializePDFJS] from the point where
    [await loadScript(this, PDF)] has settled with [loaded].  The assignment
    to [this.pdfjsLib] (line 23) comes before the two lines that can throw:
    setting [workerSrc] (line 24) throws when the library has no
    [GlobalWorkerOptions]. *)
Definition initializePDFJS_resume (loaded : Settled unit) (this : Component)
    (win : Window) : Component * Window * Log :=
  match loaded with
  | Rejected error => (this, win, load_failed error)
  | Fulfilled _ =>
      match windowPdfjsLib win with
      | Some lib =>
          let this := {| isLoading := isLoading this;
                         extractedText := extractedText this;
                         pdfjsLib := Some WindowPdfjsLib |} in
          match GlobalWorkerOptions lib with
          | Some _ =>
              let win := {| windowPdfjsLib :=
                              Some {| GlobalWorkerOptions :=
                                        Some {| workerSrc := Some PDFWorker |};
                                      libOwnerDocument := libOwnerDocument lib |};
                            hasGlobalThis := hasGlobalThis win |} in
              match patchPDFJSForLWC win with
              | Fulfilled win => (this, win, [])
              | Rejected error => (this, win, load_failed error)
              end
          | None =>
              (this, win,
               load_failed
                 {| message :=
                      "Cannot set properties of undefined (setting 'workerSrc')" |})
          end
      | None =>
          (this, win, load_failed {| message := "PDF.js not found in window" |})
      end
  end.

(** Lines 18-33 when nothing else happens while the script loads. *)
Definition initializePDFJS (this : Component) (win : Window)
  : Component * Window * Log :=
  match loadScript PDF win with
  | (win, loaded) =>
      match initializePDFJS_resume loaded this win with
      | (this, win, log) => (this, win, (ScriptLoad PDF :: log)%list)
      end
  end.

(** The component in its page: its fields, the globals, and how many
    [loadScript] promises of [initializePDFJS] have not settled yet. *)
Record Hosted : Type := {
  component : Component;
  window : Window;
  pendingLoads : nat
}.

(** Lines 12-16.  [initializePDFJS] is called without [await]: it runs up
    to its [await loadScript(this, PDF)] and the rendering returns with the
    load pending. *)
Definition renderedCallback (h : Hosted) : Hosted * Log :=
  match pdfjsLib (component h) with
  | None =>
      ({| component := component h;
          window := window h;
          pendingLoads := S (pendingLoads h) |},
       [ScriptLoad PDF])
  | Some _ => (h, [])
  end.

(** A pending [loadScript] promise settles and the [initializePDFJS] that
    waits for it goes on. *)
Definition scriptSettled (h : Hosted) : Hosted * Log :=
  match pendingLoads h with
  | 0 => (h, [])
  | S pending =>
      match loadScript PDF (window h) with
      | (win, loaded) =>
          match initializePDFJS_resume loaded (component h) win with
          | (this, win, log) =>
              ({| component := this; window := win; pendingLoads := pending |},
               log)
          end
      end
  end.

(** What happens to a hosted component. *)
Inductive Happening : Type :=
| Rendering
| ScriptSettles.

Definition happen (what : Happening) (h : Hosted) : Hosted * Log :=
  match what with
  | Rendering => renderedCallback h
  | ScriptSettles => scriptSettled h
  end.

Fixpoint run (whats : list Happening) (h : Hosted) : Hosted * Log :=
  match whats with
  | [] => (h, [])
  | what :: rest =>
      match happen what h with
      | (h1, log1) =>
          match run rest h1 with
          | (h2, log2) => (h2, (log1 ++ log2)%list)
          end
      end
  end.

(** The toasts of a log, in order. *)
Fixpoint toasts (log : Log) : list ShowToastEvent.t :=
  match log with
  | [] => []
  | ToastShown t :: log' => t :: toasts log'
  | _ :: log' => toasts log'
  end.

(** The arguments of the [getDocument] calls of a log, in order. *)
Fixpoint document_requests (log : Log) : list DocumentParams :=
  match log with
  | [] => []
  | DocumentRequested params :: log' => params :: document_requests log'
  | _ :: log' => document_requests log'
  end.

(** The engine calls of a log, in order. *)
Fixpoint engine_events (log : Log) : list (Event page) :=
  match log with
  | [] => []
  | EngineEvent ev :: log' => ev :: engine_events log'
  | _ :: log' => engine_events log'
  end.
End WithPlatform.
End Widget.

(** The toast of a failed load. *)
Definition load_failure_toast : ShowToastEvent.t :=
  {| ShowToastEvent.title := "Error";
     ShowToastEvent.message := "Failed to load PDF library";
     ShowToastEvent.variant := "error" |}.

(** ** A platform over the document store *)

(** Files are given by what the browser reports and reads: the [type] and
    the bytes ([None] when reading fails); [pdf_file] starts with the bytes
    of %PDF.  The library parses every
    non-empty file into the stored document and refuses an empty one;
    [loadScript] fails on the empty URL, loads nothing from [blank_script],
    defines a library without [GlobalWorkerOptions] from [bare_script] and
    otherwise defines [window.pdfjsLib] when it is not there yet. *)
Module Desk.
Record File : Type := { mime : string; content : option (list Byte.byte) }.

Definition empty_pdf : JsError :=
  {| message := "The PDF file is empty, i.e. its size is zero bytes." |}.

Definition script_error : JsError := {| message := "Script load failed" |}.

Definition blank_script : Url := "/resource/blank".

Definition fresh_lib : PdfjsLib :=
  {| GlobalWorkerOptions := Some {| workerSrc := None |};
     libOwnerDocument := None |}.

(** A script that defines [window.pdfjsLib] as an object without
    [GlobalWorkerOptions]. *)
Definition bare_script : Url := "/resource/bare".

Definition bare_lib : PdfjsLib :=
  {| GlobalWorkerOptions := None; libOwnerDocument := None |}.

Definition load_script (url : Url) (win : Window) : Window * Settled unit :=
  if (url =? EmptyString)%string then (win, Rejected script_error)
  else if (url =? blank_script)%string then (win, Fulfilled tt)
  else if (url =? bare_script)%string then
    ({| windowPdfjsLib := Some bare_lib; hasGlobalThis := hasGlobalThis win |},
     Fulfilled tt)
  else
    match windowPdfjsLib win with
    | Some _ => (win, Fulfilled tt)
    | None =>
        ({| windowPdfjsLib := Some fresh_lib; hasGlobalThis := hasGlobalThis win |},
         Fulfilled tt)
    end.

Definition platform (script : Url)
  : Platform (Store.Document Z) File Store.DocumentProxy :=
  {| fileType := mime;
     readAsArrayBuffer := fun f d =>
       (d, match content f with
           | Some result => ReadLoaded result
           | None => ReadFailed
           end);
     getDocument := fun params d =>
       (d, match data params with
           | [] => Rejected empty_pdf
           | _ :: _ => Fulfilled (Store.load d)
           end);
     loadScript := load_script;
     PDF := script;
     PDFWorker := "/resource/PDFWorker" |}.

Definition pdf_file : File :=
  {| mime := "application/pdf"; content := Some [Byte.x25; Byte.x50; Byte.x44; Byte.x46] |}.


Definition unreadable_file : File :=
  {| mime := "application/pdf"; content := None |}.

Definition image_file : File :=
  {| mime := "image/png"; content := Some [Byte.x89; Byte.x50] |}.

(** A PDF whose type the browser reports in capitals. *)
Definition capital_file : File :=
  {| mime := "application/PDF"; content := Some [Byte.x25] |}.

Definition blank : Component :=
  {| isLoading := false; extractedText := EmptyString; pdfjsLib := None |}.

(** A component with the library loaded that shows an earlier text. *)
Definition showing (text : string) : Component :=
  {| isLoading := false; extractedText := text; pdfjsLib := Some WindowPdfjsLib |}.

Definition bare_window : Window :=
  {| windowPdfjsLib := None; hasGlobalThis := false |}.

Definition lwc_script : Url := "/resource/PDF".

(** [processPDF] of either draft on this platform. *)
Definition process_text (f : File) (this : Component) (d : Store.Document Z)
  : Component * Store.Document Z * list (HostEvent File (Store.Page Z)) :=
  Widget.processPDF (P := platform lwc_script) TextDraft.extractTextFromPDF f this d.


(** [Scenario.hello] turned and skewed: the entries 1, 2 and 3 differ. *)
Definition turned_hello (family : string) : TextItem Z :=
  {| str := "Hello";
     transform := {| t0 := 12%Z; t1 := 5%Z; t2 := (-5)%Z; t3 := 7%Z;
                     t4 := 10%Z; t5 := 780%Z |};
     fontName := family |}.

(** A page like [Scenario.page1] at the scale 1.5 only. *)
Definition turned_page1 (w : Z) (family : string) : Store.PageContents Z :=
  (fun params =>
     if Qeq_bool (scale params) 1.5%Q
     then {| width := w; height := 792%Z |}
     else {| width := 0%Z; height := 0%Z |},
   [turned_hello family]).
End Desk.

(** * Proofs *)

(** ** Strings *)

Lemma append_nil_r (s : string) : s ++ EmptyString = s.
Proof. induction s as [|c s IH]; cbn; [reflexivity | now rewrite IH]. Qed.

Lemma append_assoc (a b c : string) : (a ++ b) ++ c = a ++ (b ++ c).
Proof. induction a as [|x a IH]; cbn; [reflexivity | now rewrite IH]. Qed.

(** Joining with the empty separator is plain concatenation. *)
Lemma concat_nil_cons (x : string) (l : list string) :
  String.concat EmptyString (x :: l) = x ++ String.concat EmptyString l.
Proof.
  destruct l as [|y l]; cbn [String.concat].
  - now rewrite append_nil_r.
  - reflexivity.
Qed.

(** Appending the separator to every piece is joining with it and adding one
    more after the last piece. *)
Lemma concat_trailing (sep : string) (l : list string) :
  String.concat EmptyString (map (fun s => s ++ sep) l)
  = String.concat sep l ++ match l with [] => EmptyString | _ :: _ => sep end.
Proof.
  induction l as [|x l IH]; [reflexivity|].
  cbn [map]. rewrite concat_nil_cons, IH.
  destruct l as [|y l]; cbn [String.concat].
  - cbn. now rewrite !append_nil_r.
  - now rewrite !append_assoc.
Qed.

(** What [forEach] with [pageHtml += f item] leaves in [pageHtml]. *)
Lemma fold_left_append {A} (f : A -> string) (l : list A) (a : string) :
  fold_left (fun acc x => acc ++ f x) l a
  = a ++ String.concat EmptyString (map f l).
Proof.
  revert a; induction l as [|x l IH]; intros a; cbn [fold_left map].
  - cbn. now rewrite append_nil_r.
  - now rewrite IH, concat_nil_cons, append_assoc.
Qed.

Lemma concat_app_nil (l1 l2 : list string) :
  String.concat EmptyString (l1 ++ l2)
  = String.concat EmptyString l1 ++ String.concat EmptyString l2.
Proof.
  induction l1 as [|x l1 IH]; [reflexivity|].
  rewrite <- app_comm_cons, !concat_nil_cons, IH.
  now rewrite append_assoc.
Qed.

(** A piece of a concatenation is a substring of it. *)
Lemma concat_contains {A} (f : A -> string) (l : list A) (x : A) :
  In x l ->
  exists pre post, String.concat EmptyString (map f l) = pre ++ f x ++ post.
Proof.
  intros Hin. apply in_split in Hin. destruct Hin as (l1 & l2 & ->).
  exists (String.concat EmptyString (map f l1)),
         (String.concat EmptyString (map f l2)).
  now rewrite map_app, concat_app_nil, map_cons, concat_nil_cons.
Qed.

(** ** The layout draft's strings and the formats of the specification *)

Section FormatFacts.
Context {num : Type} {JN : JsNumber num}.

Lemma item_html_node (vp : Viewport num) (it : TextItem num) :
  LayoutDraft.item_html vp it = Format.item_node (height vp) it.
Proof. reflexivity. Qed.

Lemma page_html_block (vp : Viewport num) (tc : TextContent num) :
  LayoutDraft.page_html vp tc = Format.page_block vp (items tc).
Proof.
  unfold LayoutDraft.page_html.
  rewrite fold_left_append.
  rewrite (map_ext _ _ (item_html_node vp)).
  unfold LayoutDraft.page_open, Format.page_block, Format.page_container.
  now rewrite !append_assoc.
Qed.
End FormatFacts.

(** ** The loops on a document store *)

Section StoreFacts.
Import Store StoreRuns.
Context {num : Type} {JN : JsNumber num}.

Lemma fetch_page_app (pre rest : Document num) (r : Settled (Page num)) :
  fetch_page (S (List.length pre)) (pre ++ r :: rest)%list = r.
Proof.
  unfold fetch_page.
  rewrite nth_error_app2 by lia.
  now rewrite Nat.sub_diag.
Qed.

Lemma app_cons_assoc {A} (pre : list A) (x : A) (rest : list A) :
  (pre ++ x :: rest = (pre ++ [x]) ++ rest)%list.
Proof. now rewrite <- app_assoc. Qed.

Lemma text_loop (h : DocumentProxy) (rest pre : Document num) (acc : string) :
  for_pages (List.length rest) (S (List.length pre)) (TextDraft.page_body h) acc
            (pre ++ rest)%list
  = ((pre ++ rest)%list,
     trace_pages text_calls rest (S (List.length pre)),
     fold_pages text_render rest acc).
Proof.
  revert pre acc.
  induction rest as [|r rest IH]; intros pre acc; [reflexivity|].
  cbn [List.length for_pages].
  unfold bind at 1.
  unfold TextDraft.page_body at 1.
  unfold bind, await, ret; cbn [getPage getTextContent doc_engine].
  rewrite fetch_page_app.
  destruct r as [p|e]; [|reflexivity].
  cbn [fold_pages trace_pages]. unfold readable.
  destruct (textContent p) as [tc|e]; [|reflexivity].
  specialize (IH (pre ++ [Fulfilled p])%list
                 (acc ++ (join " " (map str (items tc)) ++ (LF ++ LF)))).
  rewrite <- app_cons_assoc in IH.
  rewrite length_app in IH. cbn [List.length] in IH.
  rewrite Nat.add_1_r in IH.
  rewrite IH.
  reflexivity.
Qed.

Lemma layout_loop (h : DocumentProxy) (rest pre : Document num) (acc : string) :
  for_pages (List.length rest) (S (List.length pre)) (LayoutDraft.page_body h) acc
            (pre ++ rest)%list
  = ((pre ++ rest)%list,
     trace_pages layout_calls rest (S (List.length pre)),
     fold_pages layout_render rest acc).
Proof.
  revert pre acc.
  induction rest as [|r rest IH]; intros pre acc; [reflexivity|].
  cbn [List.length for_pages].
  unfold bind at 1.
  unfold LayoutDraft.page_body at 1.
  unfold bind, await, invoke, ret;
    cbn [getPage getViewport getTextContent doc_engine].
  rewrite fetch_page_app.
  destruct r as [p|e]; [|reflexivity].
  cbn [fold_pages trace_pages]. unfold readable.
  destruct (textContent p) as [tc|e]; [|reflexivity].
  specialize (IH (pre ++ [Fulfilled p])%list
                 (acc ++ LayoutDraft.page_html
                           (viewportAt p LayoutDraft.viewport_params) tc)).
  rewrite <- app_cons_assoc in IH.
  rewrite length_app in IH. cbn [List.length] in IH.
  rewrite Nat.add_1_r in IH.
  rewrite IH.
  reflexivity.
Qed.

(** The text draft on a stored document. *)
Lemma text_run (d : Document num) :
  TextDraft.extractTextFromPDF (load d) d
  = (d, trace_pages text_calls d 1, fold_pages text_render d EmptyString).
Proof. exact (text_loop (load d) d [] EmptyString). Qed.

(** The layout draft on a stored document. *)
Lemma layout_run (d : Document num) :
  LayoutDraft.extractTextFromPDF (load d) d
  = (d, trace_pages layout_calls d 1, fold_pages layout_render d EmptyString).
Proof. exact (layout_loop (load d) d [] EmptyString). Qed.

(** On a readable document the loop appends one rendering per page. *)
Lemma fold_pages_readable (render : Page num -> TextContent num -> string)
    (cs : list (PageContents num)) (acc : string) :
  fold_pages render (readable_document cs) acc
  = Fulfilled
      (acc ++ String.concat EmptyString
                (map (fun c => render (page_of c) {| items := snd c |}) cs)).
Proof.
  revert acc; induction cs as [|c cs IH]; intros acc.
  - cbn. now rewrite append_nil_r.
  - cbn [readable_document document_of map fold_pages page_of readable_page
         textContent].
    fold (page_of c).
    change (map Fulfilled (map page_of cs)) with (readable_document cs).
    now rewrite IH, concat_nil_cons, append_assoc.
Qed.

(** The first failing fetch decides the outcome, whatever is rendered. *)
Lemma fold_pages_failure (render : Page num -> TextContent num -> string)
    (d : Document num) (acc : string) (k : nat) (e : JsError) :
  first_failure d = Some (k, e) -> fold_pages render d acc = Rejected e.
Proof.
  revert acc k; induction d as [|r d IH]; intros acc k; cbn; [discriminate|].
  destruct r as [p|e']; [|now intros [= _ ->]].
  destruct (textContent p) as [tc|e']; [|now intros [= _ ->]].
  destruct (first_failure d) as [[k' e']|] eqn:Hd; [|discriminate].
  intros [= _ ->]. now apply (IH _ k').
Qed.

Lemma text_outcome_readable (cs : list (PageContents num)) :
  outcome (TextDraft.extractTextFromPDF (load (readable_document cs))
                                        (readable_document cs))
  = Fulfilled
      (String.concat EmptyString
         (map (fun c => Format.page_segment (snd c) ++ Format.page_separator) cs)).
Proof. rewrite text_run. cbn [outcome snd]. now rewrite fold_pages_readable. Qed.

Lemma layout_outcome_readable (cs : list (PageContents num)) :
  outcome (LayoutDraft.extractTextFromPDF (load (readable_document cs))
                                          (readable_document cs))
  = Fulfilled
      (String.concat EmptyString
         (map (fun c => Format.page_block (fst c LayoutDraft.viewport_params)
                                          (snd c)) cs)).
Proof.
  rewrite layout_run. cbn [outcome snd]. rewrite fold_pages_readable.
  cbn [append]. do 2 f_equal.
  apply map_ext; intros c. unfold layout_render. now rewrite page_html_block.
Qed.
End StoreFacts.

(** ** Traces *)

Section TraceFacts.
Import Trace.
Context {page : Type}.

Lemma sequential_app (tr1 tr2 : list (Event page)) :
  sequential tr1 -> sequential tr2 -> sequential (tr1 ++ tr2).
Proof.
  induction 1 as [|c tr H IH]; intros H2; [exact H2|].
  cbn. constructor. now apply IH.
Qed.

(** Calls that complete one after the other are never two in flight. *)
Lemma sequential_in_flight (tr : list (Event page)) :
  sequential tr -> max_in_flight 0 tr <= 1.
Proof.
  induction 1 as [|c tr H IH]; cbn [max_in_flight Nat.pred]; lia.
Qed.

Lemma text_schedule_S (i n : nat) :
  text_schedule i (S n) = KGetPage i :: KGetTextContent :: text_schedule (S i) n.
Proof. reflexivity. Qed.

Lemma layout_schedule_S (i n : nat) :
  layout_schedule i (S n)
  = KGetPage i :: KGetViewport LayoutDraft.viewport_params :: KGetTextContent
      :: layout_schedule (S i) n.
Proof. reflexivity. Qed.
End TraceFacts.

(** ** The loops on any engine *)

Section EngineFacts.
Import Trace.
Context {num : Type} {JN : JsNumber num}.
Context {world pdf page : Type} (E : PdfEngine num world pdf page).

Lemma text_loop_follows (doc : pdf) (n i : nat) (acc : string) (w : world) :
  match for_pages n i (TextDraft.page_body doc) acc w with
  | (_, tr, r) => follows (text_schedule i n) tr r
  end.
Proof.
  revert i acc w; induction n as [|n IH]; intros i acc w.
  - split; [constructor | split; [now exists [] | reflexivity]].
  - rewrite text_schedule_S. cbn [for_pages].
    unfold bind at 1. unfold TextDraft.page_body at 1.
    unfold bind, await, ret.
    destruct (getPage doc i w) as [w1 [pg|e]].
    2:{ unfold follows; cbn.
        split; [repeat constructor | split; [eauto | exact I]]. }
    destruct (getTextContent pg w1) as [w2 [tc|e]].
    2:{ unfold follows; cbn.
        split; [repeat constructor | split; [eauto | exact I]]. }
    specialize (IH (S i) (acc ++ (join " " (map str (items tc)) ++ (LF ++ LF))) w2).
    destruct (for_pages n (S i) (TextDraft.page_body doc) _ w2) as [[w3 tr3] r3].
    destruct IH as (Hseq & (rest & Hrest) & Hfull).
    unfold follows; cbn in *. split; [|split].
    + now repeat constructor.
    + exists rest. now rewrite Hrest.
    + destruct r3; [now rewrite Hfull | exact I].
Qed.

Lemma layout_loop_follows (doc : pdf) (n i : nat) (acc : string) (w : world) :
  match for_pages n i (LayoutDraft.page_body doc) acc w with
  | (_, tr, r) => follows (layout_schedule i n) tr r
  end.
Proof.
  revert i acc w; induction n as [|n IH]; intros i acc w.
  - split; [constructor | split; [now exists [] | reflexivity]].
  - rewrite layout_schedule_S. cbn [for_pages].
    unfold bind at 1. unfold LayoutDraft.page_body at 1.
    unfold bind, await, invoke, ret.
    destruct (getPage doc i w) as [w1 [pg|e]].
    2:{ unfold follows; cbn.
        split; [repeat constructor | split; [eauto | exact I]]. }
    destruct (getViewport pg LayoutDraft.viewport_params w1) as [w1' vp].
    destruct (getTextContent pg w1') as [w2 [tc|e]].
    2:{ unfold follows; cbn.
        split; [repeat constructor | split; [eauto | exact I]]. }
    specialize (IH (S i) (acc ++ LayoutDraft.page_html vp tc) w2).
    destruct (for_pages n (S i) (LayoutDraft.page_body doc) _ w2) as [[w3 tr3] r3].
    destruct IH as (Hseq & (rest & Hrest) & Hfull).
    unfold follows; cbn in *. split; [|split].
    + now repeat constructor.
    + exists rest. now rewrite Hrest.
    + destruct r3; [now rewrite Hfull | exact I].
Qed.

(** A loop whose body leaves the engine state alone leaves it alone. *)
Lemma for_pages_world (body : nat -> string -> @Async world page string) :
  (forall i acc w, final_world (body i acc w) = w) ->
  forall n i acc w, final_world (for_pages n i body acc w) = w.
Proof.
  intros Hbody n; induction n as [|n IH]; intros i acc w; [reflexivity|].
  cbn [for_pages]. unfold bind.
  specialize (Hbody i acc w).
  destruct (body i acc w) as [[w1 tr1] [a|e]]; cbn in Hbody; subst w1.
  - specialize (IH (S i) a w).
    destruct (for_pages n (S i) body a w) as [[w2 tr2] r]. exact IH.
  - reflexivity.
Qed.

Lemma text_body_world (doc : pdf) :
  read_only E ->
  forall i acc w, final_world (TextDraft.page_body doc i acc w) = w.
Proof.
  intros (Hpage & _ & Htext) i acc w.
  unfold TextDraft.page_body, bind, await, ret.
  specialize (Hpage doc i w).
  destruct (getPage doc i w) as [w1 [pg|e]]; cbn in Hpage; subst w1;
    [|reflexivity].
  specialize (Htext pg w).
  destruct (getTextContent pg w) as [w2 [tc|e]]; cbn in Htext; subst w2;
    reflexivity.
Qed.

Lemma layout_body_world (doc : pdf) :
  read_only E ->
  forall i acc w, final_world (LayoutDraft.page_body doc i acc w) = w.
Proof.
  intros (Hpage & Hview & Htext) i acc w.
  unfold LayoutDraft.page_body, bind, await, invoke, ret.
  specialize (Hpage doc i w).
  destruct (getPage doc i w) as [w1 [pg|e]]; cbn in Hpage; subst w1;
    [|reflexivity].
  specialize (Hview pg LayoutDraft.viewport_params w).
  destruct (getViewport pg LayoutDraft.viewport_params w) as [w1 vp];
    cbn in Hview; subst w1.
  specialize (Htext pg w).
  destruct (getTextContent pg w) as [w2 [tc|e]]; cbn in Htext; subst w2;
    reflexivity.
Qed.
End EngineFacts.

(** ** The order of the calls on any engine *)

Section ProtocolFacts.
Import Trace.
Context {num : Type} {JN : JsNumber num}.
Context {world pdf page : Type} (E : PdfEngine num world pdf page).

(** [await] on an engine call is the call followed by the wait for its
    promise. *)
Lemma await_issue_settle {A} (c : EngineCall page)
    (call : world -> world * Settled A) (w : world) :
  await c call w = bind (issue c call) settle w.
Proof. unfold await, bind, issue, settle. now destruct (call w) as [w' r]. Qed.

(** With calls and waits apart, two calls can be in flight: the trace of
    [fetch_ahead] is not sequential. *)
Lemma fetch_ahead_two_in_flight (doc : pdf) (w : world) :
  max_in_flight 0 (trace_of (Protocol.fetch_ahead doc w)) = 2 /\
  ~ sequential (trace_of (Protocol.fetch_ahead doc w)).
Proof.
  unfold Protocol.fetch_ahead, bind, issue, settle, ret.
  destruct (getPage doc 1 w) as [w1 r1].
  destruct (getPage doc 2 w1) as [w2 r2].
  destruct r1 as [pg1|e1]; [destruct r2 as [pg2|e2]|]; cbn.
  all: split; [reflexivity | intros Hseq; inversion Hseq].
Qed.

Lemma text_loop_protocol (doc : pdf) (n i : nat) (acc : string) (w : world) :
  match for_pages n i (TextDraft.page_body doc) acc w with
  | (w', tr, r) => Protocol.text_run doc n i w tr w' (rejection r)
  end.
Proof.
  revert i acc w; induction n as [|n IH]; intros i acc w.
  - constructor.
  - cbn [for_pages]. unfold bind at 1. unfold TextDraft.page_body at 1.
    unfold bind, await, ret.
    destruct (getPage doc i w) as [w1 [pg|e]] eqn:Hpage.
    2:{ now constructor. }
    destruct (getTextContent pg w1) as [w2 [tc|e]] eqn:Htext.
    2:{ cbn. now apply (Protocol.text_content_rejected doc n i w w1 w2 pg e). }
    specialize (IH (S i) (acc ++ (join " " (map str (items tc)) ++ (LF ++ LF))) w2).
    destruct (for_pages n (S i) (TextDraft.page_body doc) _ w2) as [[w3 tr3] r3].
    cbn. now apply (Protocol.text_page_done doc n i w w1 w2 w3 pg tc).
Qed.

Lemma layout_loop_protocol (doc : pdf) (n i : nat) (acc : string) (w : world) :
  match for_pages n i (LayoutDraft.page_body doc) acc w with
  | (w', tr, r) => Protocol.layout_run doc n i w tr w' (rejection r)
  end.
Proof.
  revert i acc w; induction n as [|n IH]; intros i acc w.
  - constructor.
  - cbn [for_pages]. unfold bind at 1. unfold LayoutDraft.page_body at 1.
    unfold bind, await, invoke, ret.
    destruct (getPage doc i w) as [w1 [pg|e]] eqn:Hpage.
    2:{ now constructor. }
    destruct (getViewport pg LayoutDraft.viewport_params w1) as [w2 vp] eqn:Hview.
    destruct (getTextContent pg w2) as [w3 [tc|e]] eqn:Htext.
    2:{ cbn.
        now apply (Protocol.layout_content_rejected doc n i w w1 w2 w3 pg vp e). }
    specialize (IH (S i) (acc ++ LayoutDraft.page_html vp tc) w3).
    destruct (for_pages n (S i) (LayoutDraft.page_body doc) _ w3) as [[w4 tr4] r4].
    cbn. now apply (Protocol.layout_page_done doc n i w w1 w2 w3 w4 pg vp tc).
Qed.

(** The pages from [i] on can be fetched and read in the state [w]. *)
Lemma text_loop_readable (doc : pdf) (n i : nat) (acc : string) (w : world) :
  (forall j, i <= j < i + n ->
     exists pg tc, getPage doc j w = (w, Fulfilled pg) /\
                   getTextContent pg w = (w, Fulfilled tc) /\
                   forall params, fst (getViewport pg params w) = w) ->
  exists tr t,
    for_pages n i (TextDraft.page_body doc) acc w = (w, tr, Fulfilled t) /\
    fetched_indices tr = seq i n /\ List.length (issued tr) = 2 * n.
Proof.
  revert i acc; induction n as [|n IH]; intros i acc Hread.
  - exists [], acc. repeat split.
  - destruct (Hread i ltac:(lia)) as (pg & tc & Hpage & Htext & _).
    destruct (IH (S i) (acc ++ (join " " (map str (items tc)) ++ (LF ++ LF))))
      as (tr & t & Hrun & Hfetched & Hlen).
    { intros j Hj. apply Hread. lia. }
    cbn [for_pages]. unfold bind at 1. unfold TextDraft.page_body at 1.
    unfold bind, await, ret. rewrite Hpage, Htext, Hrun.
    do 2 eexists. split; [reflexivity|].
    cbn. rewrite Hfetched, Hlen. split; [reflexivity | lia].
Qed.

Lemma layout_loop_readable (doc : pdf) (n i : nat) (acc : string) (w : world) :
  (forall j, i <= j < i + n ->
     exists pg tc, getPage doc j w = (w, Fulfilled pg) /\
                   getTextContent pg w = (w, Fulfilled tc) /\
                   forall params, fst (getViewport pg params w) = w) ->
  exists tr t,
    for_pages n i (LayoutDraft.page_body doc) acc w = (w, tr, Fulfilled t) /\
    fetched_indices tr = seq i n /\ List.length (issued tr) = 3 * n.
Proof.
  revert i acc; induction n as [|n IH]; intros i acc Hread.
  - exists [], acc. repeat split.
  - destruct (Hread i ltac:(lia)) as (pg & tc & Hpage & Htext & Hview).
    specialize (Hview LayoutDraft.viewport_params).
    destruct (getViewport pg LayoutDraft.viewport_params w) as [w1 vp] eqn:Hvp.
    cbn in Hview. subst w1.
    destruct (IH (S i) (acc ++ LayoutDraft.page_html vp tc))
      as (tr & t & Hrun & Hfetched & Hlen).
    { intros j Hj. apply Hread. lia. }
    cbn [for_pages]. unfold bind at 1. unfold LayoutDraft.page_body at 1.
    unfold bind, await, invoke, ret. rewrite Hpage, Hvp, Htext, Hrun.
    do 2 eexists. split; [reflexivity|].
    cbn. rewrite Hfetched, Hlen. split; [reflexivity | lia].
Qed.
End ProtocolFacts.

(** ** Which pages a run on a document store fetches *)

Section FetchedFacts.
Import Store StoreRuns Trace.
Context {num : Type} {JN : JsNumber num}.

Lemma fetched_indices_app (tr1 tr2 : list (Event (Page num))) :
  fetched_indices (tr1 ++ tr2) = (fetched_indices tr1 ++ fetched_indices tr2)%list.
Proof.
  induction tr1 as [|ev tr1 IH]; [reflexivity|].
  destruct ev as [[j|p params|p]|c]; cbn; now rewrite ?IH.
Qed.

Lemma text_calls_no_fetch : no_page_fetch (@text_calls num).
Proof. intros p; reflexivity. Qed.

Lemma layout_calls_no_fetch : no_page_fetch (@layout_calls num).
Proof. intros p; reflexivity. Qed.

Lemma fetched_readable page_calls (cs : list (PageContents num)) (i : nat) :
  no_page_fetch page_calls ->
  fetched_indices (trace_pages page_calls (readable_document cs) i)
  = seq i (List.length cs).
Proof.
  intros Hcalls. revert i; induction cs as [|c cs IH]; intros i; [reflexivity|].
  cbn [readable_document document_of map trace_pages List.length seq].
  rewrite !fetched_indices_app, Hcalls.
  cbn. f_equal. apply IH.
Qed.

Lemma fetched_failure page_calls (d : Document num) (i k : nat) (e : JsError) :
  no_page_fetch page_calls ->
  first_failure d = Some (k, e) ->
  fetched_indices (trace_pages page_calls d i) = seq i k.
Proof.
  intros Hcalls. revert i k; induction d as [|r d IH]; intros i k;
    cbn [first_failure trace_pages]; [discriminate|].
  destruct r as [p|e']; [|now intros [= <- _]].
  rewrite !fetched_indices_app, Hcalls. unfold readable.
  destruct (textContent p) as [tc|e']; [|now intros [= <- _]].
  destruct (first_failure d) as [[k' e']|] eqn:Hd; [|discriminate].
  intros [= <- <-]. cbn. f_equal. now apply IH.
Qed.

Lemma first_failure_range (d : Document num) (k : nat) (e : JsError) :
  first_failure d = Some (k, e) -> 1 <= k <= List.length d.
Proof.
  revert k; induction d as [|r d IH]; intros k; cbn; [discriminate|].
  destruct r as [p|e']; [|intros [= <- _]; lia].
  destruct (textContent p) as [tc|e']; [|intros [= <- _]; lia].
  destruct (first_failure d) as [[k' e']|] eqn:Hd; [|discriminate].
  intros [= <- <-]. specialize (IH k' eq_refl). cbn [List.length]. lia.
Qed.
End FetchedFacts.

(** * The claims *)

Section TextMode.
Import Store StoreRuns Trace Format.
Context {num : Type} {JN : JsNumber num}.

(** C1. On a document of N readable pages the text draft fetches the pages
    1, 2, ..., N in that order, and its output is the pages' segments, each
    the page's item texts in their order joined with one space, with a blank
    line (two line feeds) between consecutive segments; the same separator
    also follows the last segment. *)
Theorem C1_text_pages_in_order (cs : list (PageContents num)) :
  let d := readable_document cs in
  let o := TextDraft.extractTextFromPDF (load d) d in
  fetched_indices (trace_of o) = seq 1 (List.length cs) /\
  List.length (map (fun c => page_segment (snd c)) cs) = List.length cs /\
  outcome o
  = Fulfilled
      (join page_separator (map (fun c => join " " (map str (snd c))) cs)
       ++ match cs with [] => EmptyString | _ :: _ => page_separator end).
Proof.
  cbv zeta. split; [|split].
  - rewrite text_run. cbn [trace_of fst snd].
    apply fetched_readable, text_calls_no_fetch.
  - apply length_map.
  - rewrite text_outcome_readable. f_equal.
    rewrite <- (map_map (fun c => page_segment (snd c))
                        (fun s => s ++ page_separator)).
    rewrite concat_trailing.
    unfold join, page_segment. now destruct cs.
Qed.

(** C9. The page separator of the text draft is trailing: the output is the
    concatenation over the pages of the space-joined item texts followed by
    two line feeds; a document without pages gives the empty string, and a
    document with a last page gives a string that ends with the two line
    feeds. *)
Theorem C9_text_separator_trailing
    (cs : list (PageContents num)) (last : PageContents num) :
  let run := fun cs' =>
    outcome (TextDraft.extractTextFromPDF (load (readable_document cs'))
                                          (readable_document cs')) in
  run cs
  = Fulfilled
      (String.concat EmptyString
         (map (fun c => join " " (map str (snd c)) ++ (LF ++ LF)) cs)) /\
  run [] = Fulfilled EmptyString /\
  exists s, run (cs ++ [last])%list = Fulfilled (s ++ (LF ++ LF)).
Proof.
  cbv zeta. split; [|split].
  - apply text_outcome_readable.
  - reflexivity.
  - rewrite text_outcome_readable, map_app, concat_app_nil.
    exists (String.concat EmptyString
              (map (fun c => page_segment (snd c) ++ page_separator) cs)
            ++ page_segment (snd last)).
    f_equal. cbn [map String.concat]. now rewrite append_assoc.
Qed.
End TextMode.

Section LayoutMode.
Import Store StoreRuns Trace Format.
Context {num : Type} {JN : JsNumber num}.

(** C3. On a document of N readable pages the layout draft fetches the
    pages 1, 2, ..., N in that order and its output is the N page-container
    blocks in that order with nothing between them; each block declares the
    width and the height of its page's viewport. *)
Theorem C3_layout_page_blocks (cs : list (PageContents num)) :
  let d := readable_document cs in
  let o := LayoutDraft.extractTextFromPDF (load d) d in
  let block := fun c : PageContents num =>
    let viewport := fst c LayoutDraft.viewport_params in
    page_container
      (num_to_string (width viewport)) (num_to_string (height viewport))
      (String.concat EmptyString (map (item_node (height viewport)) (snd c))) in
  fetched_indices (trace_of o) = seq 1 (List.length cs) /\
  List.length (map block cs) = List.length cs /\
  outcome o = Fulfilled (String.concat EmptyString (map block cs)).
Proof.
  cbv zeta. split; [|split].
  - rewrite layout_run. cbn [trace_of fst snd].
    apply fetched_readable, layout_calls_no_fetch.
  - apply length_map.
  - rewrite layout_outcome_readable. unfold page_block. reflexivity.
Qed.

Lemma page_block_split (vp : Viewport num) (its : list (TextItem num)) :
  page_block vp its
  = LayoutDraft.page_open vp
    ++ String.concat EmptyString (map (item_node (height vp)) its) ++ "</div>".
Proof.
  unfold page_block, page_container, LayoutDraft.page_open.
  now rewrite !append_assoc.
Qed.

(** Every item of every page has its node in the output. *)
Lemma layout_contains_item (cs : list (PageContents num))
    (c : PageContents num) (it : TextItem num) :
  In c cs -> In it (snd c) ->
  exists pre post,
    outcome (LayoutDraft.extractTextFromPDF (load (readable_document cs))
                                            (readable_document cs))
    = Fulfilled
        (pre ++ item_node (height (fst c LayoutDraft.viewport_params)) it ++ post).
Proof.
  intros Hc Hit. rewrite layout_outcome_readable.
  destruct (concat_contains
              (fun c => page_block (fst c LayoutDraft.viewport_params) (snd c))
              cs c Hc) as (pre1 & post1 & H1).
  destruct (concat_contains
              (item_node (height (fst c LayoutDraft.viewport_params)))
              (snd c) it Hit) as (pre2 & post2 & H2).
  rewrite H1, page_block_split, H2.
  exists (pre1 ++ LayoutDraft.page_open (fst c LayoutDraft.viewport_params) ++ pre2),
         (post2 ++ "</div>" ++ post1).
  now rewrite !append_assoc.
Qed.
End LayoutMode.

Section LayoutItems.
Import Store StoreRuns Trace Format.
Context {num : Type} {JN : JsNumber num}.

Lemma positioned_node_split (left top size family text : string) :
  positioned_node left top size family text
  = node_head left top size ++ verbatim_part family text.
Proof.
  unfold positioned_node, node_tail, node_head, verbatim_part.
  now rewrite !append_assoc.
Qed.

(** C2. In the layout draft's output the node of an item whose
    [transform[5]] is [t], on a page whose viewport height is [H], has the
    top offset [H - t]. *)
Theorem C2_layout_y_flip (cs : list (PageContents num))
    (c : PageContents num) (it : TextItem num) (H t : num) :
  In c cs -> In it (snd c) ->
  height (fst c LayoutDraft.viewport_params) = H ->
  t5 (transform it) = t ->
  exists pre post,
    outcome (LayoutDraft.extractTextFromPDF (load (readable_document cs))
                                            (readable_document cs))
    = Fulfilled
        (pre ++ positioned_node (num_to_string (t4 (transform it)))
                                (num_to_string (num_sub H t))
                                (num_to_string (t0 (transform it)))
                                (fontName it) (str it)
             ++ post).
Proof.
  intros Hc Hit <- <-. exact (layout_contains_item cs c it Hc Hit).
Qed.

(** C8. In the layout draft's output the text and the font name of every
    item stand as they are, character for character, after
    [font-family: ] and inside the node: nothing is escaped. *)
Theorem C8_layout_text_verbatim (cs : list (PageContents num))
    (c : PageContents num) (it : TextItem num) :
  In c cs -> In it (snd c) ->
  exists pre post,
    outcome (LayoutDraft.extractTextFromPDF (load (readable_document cs))
                                            (readable_document cs))
    = Fulfilled
        (pre ++ ("font-family: " ++ fontName it ++ ";" ++ LF ++
                 spaces 36 ++ "white-space: nowrap;" ++ LF ++
                 spaces 32 ++ DQ ++ ">" ++ LF ++
                 spaces 36 ++ str it ++ LF ++
                 spaces 32 ++ "</div>")
             ++ post).
Proof.
  intros Hc Hit.
  destruct (layout_contains_item cs c it Hc Hit) as (pre & post & Hout).
  unfold item_node in Hout. rewrite positioned_node_split in Hout.
  eexists (pre ++ node_head _ _ _), post.
  rewrite Hout. f_equal. unfold verbatim_part. now rewrite !append_assoc.
Qed.
End LayoutItems.

Section Failures.
Import Store StoreRuns Trace.
Context {num : Type} {JN : JsNumber num}.

(** C4, as the code has it. When page [k] is the first page one of whose
    fetches (the page or its text content) fails, with the engine's error
    [e], both drafts reject with [e] itself, as the engine gave it: no
    result is produced, the pages 1, ..., [k] are the only ones fetched and
    no page after [k] is asked for. *)
Theorem C4_failure_rejects_with_engine_error
    (d : Document num) (k : nat) (e : JsError) :
  first_failure d = Some (k, e) ->
  let text := TextDraft.extractTextFromPDF (load d) d in
  let layout := LayoutDraft.extractTextFromPDF (load d) d in
  1 <= k <= List.length d /\
  outcome text = Rejected e /\
  fetched_indices (trace_of text) = seq 1 k /\
  outcome layout = Rejected e /\
  fetched_indices (trace_of layout) = seq 1 k.
Proof.
  intros Hfail; cbv zeta.
  rewrite text_run, layout_run. cbn [outcome trace_of fst snd].
  split; [now apply (first_failure_range d k e)|].
  split; [now apply (fold_pages_failure _ d _ k)|].
  split; [now apply (fetched_failure _ d 1 k e text_calls_no_fetch)|].
  split; [now apply (fold_pages_failure _ d _ k)|].
  now apply (fetched_failure _ d 1 k e layout_calls_no_fetch).
Qed.
End Failures.

(** C4, as stated, fails: the error of a failed extraction does not tell the
    failing page.  The documents [fails_at_page_1] and [fails_at_page_2] fail
    at different pages with the same engine error, and the text draft rejects
    with that very error for both. *)
Lemma C4_error_does_not_name_page :
  ~ names_failing_page TextDraft.extractTextFromPDF.
Proof.
  intros (page_of_error & Hnames).
  destruct (Hnames Scenario.fails_at_page_1 1 Scenario.fetch_error eq_refl)
    as (e1 & Hout1 & Hpage1).
  destruct (Hnames Scenario.fails_at_page_2 2 Scenario.fetch_error eq_refl)
    as (e2 & Hout2 & Hpage2).
  rewrite text_run in Hout1, Hout2.
  cbn in Hout1, Hout2.
  injection Hout1 as <-. injection Hout2 as <-.
  rewrite Hpage1 in Hpage2. discriminate.
Qed.

Lemma C4_failure_witness :
  let d := Scenario.text_fails_at_page_2 in
  let text := TextDraft.extractTextFromPDF (Store.load d) d in
  let layout := LayoutDraft.extractTextFromPDF (Store.load d) d in
  1 <= 2 <= 3 /\
  outcome text = Rejected Scenario.fetch_error /\
  Trace.fetched_indices (trace_of text) = [1; 2] /\
  outcome layout = Rejected Scenario.fetch_error /\
  Trace.fetched_indices (trace_of layout) = [1; 2].
Proof.
  exact (C4_failure_rejects_with_engine_error
           Scenario.text_fails_at_page_2 2 Scenario.fetch_error eq_refl).
Defined.

Section AnyEngine.
Import Trace.
Context {num : Type} {JN : JsNumber num}.
Context {world pdf page : Type} (E : PdfEngine num world pdf page).

(** With values in place of objects: when the engine's fetches are
    read-only, both drafts leave the
    engine state (the document, its pages and their items) as it was, and a
    second run on the same document gives the same outcome and makes the
    same calls as the first. *)
Lemma value_runs_keep_the_state (doc : pdf) (w : world) :
  read_only E ->
  let text := TextDraft.extractTextFromPDF doc w in
  let layout := LayoutDraft.extractTextFromPDF doc w in
  final_world text = w /\
  TextDraft.extractTextFromPDF doc (final_world text) = text /\
  final_world layout = w /\
  LayoutDraft.extractTextFromPDF doc (final_world layout) = layout.
Proof.
  intros Hro; cbv zeta.
  assert (Ht : final_world (TextDraft.extractTextFromPDF doc w) = w)
    by (apply for_pages_world, text_body_world, Hro).
  assert (Hl : final_world (LayoutDraft.extractTextFromPDF doc w) = w)
    by (apply for_pages_world, layout_body_world, Hro).
  rewrite Ht, Hl. auto.
Qed.

(** C7. On every engine, every document and every state the text draft
    makes its engine calls strictly one after the other.  Its trace is exactly
    getPage(1), getTextContent on the page just fetched, getPage(2),
    getTextContent, ... in ascending order, each call made in the state the
    call before it left and completed before the next is issued; the run goes
    on to the next page as long as the calls are fulfilled, stops at the first
    rejected call and is fulfilled exactly when all N pages were done.  No two
    calls are ever in flight. *)
Theorem C7_pages_fetched_sequentially (doc : pdf) (w : world) :
  let o := TextDraft.extractTextFromPDF doc w in
  let schedule :=
    flat_map (fun i => [KGetPage i; KGetTextContent]) (seq 1 (numPages doc)) in
  Protocol.text_run doc (numPages doc) 1 w
                    (trace_of o) (final_world o) (rejection (outcome o)) /\
  sequential (trace_of o) /\
  max_in_flight 0 (trace_of o) <= 1 /\
  (exists rest, schedule = (issued (trace_of o) ++ rest)%list) /\
  match outcome o with
  | Fulfilled _ => issued (trace_of o) = schedule
  | Rejected _ => True
  end.
Proof.
  cbv zeta. unfold TextDraft.extractTextFromPDF.
  pose proof (text_loop_follows E doc (numPages doc) 1 EmptyString w) as Hf.
  pose proof (text_loop_protocol E doc (numPages doc) 1 EmptyString w) as Hp.
  destruct (for_pages (numPages doc) 1 (TextDraft.page_body doc) EmptyString w)
    as [[w' tr] r].
  destruct Hf as (Hseq & Hpre & Hfull).
  cbn [trace_of outcome final_world fst snd].
  split; [exact Hp|].
  split; [exact Hseq|].
  split; [now apply sequential_in_flight|].
  split; [exact Hpre | exact Hfull].
Qed.

(** The layout draft makes its calls one after the other as well, with the
    viewport asked for between the two fetches. *)
Lemma layout_pages_fetched_sequentially (doc : pdf) (w : world) :
  let o := LayoutDraft.extractTextFromPDF doc w in
  follows (layout_schedule 1 (numPages doc)) (trace_of o) (outcome o).
Proof.
  cbv zeta. unfold LayoutDraft.extractTextFromPDF.
  pose proof (layout_loop_follows E doc (numPages doc) 1 EmptyString w) as Hf.
  destruct (for_pages (numPages doc) 1 (LayoutDraft.page_body doc) EmptyString w)
    as [[w' tr] r].
  exact Hf.
Qed.
End AnyEngine.

Lemma doc_engine_read_only {num : Type} : read_only (@Store.doc_engine num).
Proof. repeat split. Qed.

Lemma value_runs_keep_the_sample :
  let d := Scenario.sample in
  let text := TextDraft.extractTextFromPDF (Store.load d) d in
  let layout := LayoutDraft.extractTextFromPDF (Store.load d) d in
  final_world text = d /\
  TextDraft.extractTextFromPDF (Store.load d) (final_world text) = text /\
  final_world layout = d /\
  LayoutDraft.extractTextFromPDF (Store.load d) (final_world layout) = layout.
Proof.
  apply (value_runs_keep_the_state Store.doc_engine
           (Store.load Scenario.sample) Scenario.sample).
  repeat split.
Qed.

(** * The loops over shared objects *)

Section ObjectFacts.
Import Objects.
Context {num : Type} {JN : JsNumber num}.
Context {state pdf page : Type} (E : RefEngine num state pdf page).
Variable R : Memory num state -> Memory num state -> Prop.
Hypothesis R_refl : forall m, R m m.
Hypothesis R_trans : forall a b c, R a b -> R b c -> R a c.
Hypothesis R_engine : engine_within R E.

Lemma stays_ret {A} (a : A) : stays (page := page) R (ret a).
Proof. intros m. apply R_refl. Qed.

Lemma stays_throw {A} (e : JsError) : stays (page := page) R (throw (A := A) e).
Proof. intros m. apply R_refl. Qed.

Lemma stays_read (r : Ref) : stays (page := page) R (read r).
Proof. intros m. unfold read. destruct (lookup r (heap m)); apply R_refl. Qed.

Lemma stays_bind {A B} (c : M (page := page) A) (k : A -> M (page := page) B) :
  stays R c -> (forall a, stays R (k a)) -> stays R (bind c k).
Proof.
  intros Hc Hk m. unfold bind. specialize (Hc m).
  destruct (c m) as [[m1 tr1] [a|e]]; cbn in *; [|exact Hc].
  specialize (Hk a m1). destruct (k a m1) as [[m2 tr2] r]; cbn in *.
  now apply (R_trans m m1 m2).
Qed.

Lemma stays_await {A} (c : EngineCall page)
    (call : Memory num state -> Memory num state * Settled A) :
  (forall m, R m (fst (call m))) -> stays R (await c call).
Proof. intros Hcall m. unfold await. specialize (Hcall m). now destruct (call m). Qed.

Lemma stays_invoke {A} (c : EngineCall page)
    (call : Memory num state -> Memory num state * A) :
  (forall m, R m (fst (call m))) -> stays R (invoke c call).
Proof. intros Hcall m. unfold invoke. specialize (Hcall m). now destruct (call m). Qed.

Lemma stays_get_items (r : Ref) : stays (page := page) R (get_items r).
Proof.
  apply stays_bind; [apply stays_read|]. intros [a|els|s t f|entries|v];
    try apply stays_throw.
  apply stays_bind; [apply stays_read|]. intros [a'|els|s t f|entries|v];
    try apply stays_throw. apply stays_ret.
Qed.

Lemma stays_get_str (r : Ref) : stays (page := page) R (get_str r).
Proof.
  apply stays_bind; [apply stays_read|]. intros [a|els|s t f|entries|v];
    try apply stays_throw. apply stays_ret.
Qed.

Lemma stays_get_item (r : Ref) : stays (page := page) R (get_item r).
Proof.
  apply stays_bind; [apply stays_read|]. intros [a|els|s t f|entries|v];
    try apply stays_throw.
  apply stays_bind; [apply stays_read|]. intros [a'|els|s' t' f'|entries|v];
    try apply stays_throw. apply stays_ret.
Qed.

Lemma stays_get_viewport (r : Ref) : stays (page := page) R (get_viewport r).
Proof.
  apply stays_bind; [apply stays_read|]. intros [a|els|s t f|entries|v];
    try apply stays_throw. apply stays_ret.
Qed.

Lemma stays_array_map {A} (f : Ref -> M (page := page) A) (elements : list Ref) :
  (forall r, stays R (f r)) -> stays R (array_map f elements).
Proof.
  intros Hf. induction elements as [|x rest IH]; [apply stays_ret|].
  cbn [array_map]. apply stays_bind; [apply Hf|]. intros y.
  apply stays_bind; [exact IH|]. intros ys. apply stays_ret.
Qed.

Lemma stays_array_forEach (f : string -> Ref -> M (page := page) string)
    (elements : list Ref) (pageHtml : string) :
  (forall s r, stays R (f s r)) -> stays R (array_forEach f elements pageHtml).
Proof.
  intros Hf. revert pageHtml.
  induction elements as [|x rest IH]; intros pageHtml; [apply stays_ret|].
  cbn [array_forEach]. apply stays_bind; [apply Hf|]. intros s. apply IH.
Qed.

Lemma stays_for_pages (body : nat -> string -> M (page := page) string)
    (n i : nat) (acc : string) :
  (forall j s, stays R (body j s)) -> stays R (for_pages n i body acc).
Proof.
  intros Hbody. revert i acc.
  induction n as [|n IH]; intros i acc; [apply stays_ret|].
  cbn [for_pages]. apply stays_bind; [apply Hbody|]. intros s. apply IH.
Qed.

(** The loops change the memory through the engine's calls only. *)
Lemma text_only_engine_effects (doc : pdf) :
  stays R (Text.extractTextFromPDF doc).
Proof.
  destruct R_engine as (Hpage & Hview & Htext).
  apply stays_for_pages. intros j s. unfold Text.page_body.
  apply stays_bind; [apply stays_await, Hpage|]. intros pg.
  apply stays_bind; [apply stays_await, Htext|]. intros tc.
  apply stays_bind; [apply stays_get_items|]. intros els.
  apply stays_bind; [apply stays_array_map, stays_get_str|]. intros texts.
  apply stays_ret.
Qed.

Lemma layout_only_engine_effects (doc : pdf) :
  stays R (Layout.extractTextFromPDF doc).
Proof.
  destruct R_engine as (Hpage & Hview & Htext).
  apply stays_for_pages. intros j s. unfold Layout.page_body.
  apply stays_bind; [apply stays_await, Hpage|]. intros pg.
  apply stays_bind; [apply stays_invoke, Hview|]. intros vp.
  apply stays_bind; [apply stays_await, Htext|]. intros tc.
  apply stays_bind; [apply stays_get_viewport|]. intros v.
  apply stays_bind; [apply stays_get_items|]. intros els.
  apply stays_bind.
  - apply stays_array_forEach. intros html r. unfold Layout.append_item.
    apply stays_bind; [apply stays_get_item|]. intros it.
    apply stays_bind; [apply stays_get_viewport|]. intros v'. apply stays_ret.
  - intros html. apply stays_ret.
Qed.
End ObjectFacts.

Section ObjectClaim.
Import Objects.
Context {num : Type} {JN : JsNumber num}.
Context {state pdf page : Type} (E : RefEngine num state pdf page).

(** C6. The objects the engine hands out (text contents, items arrays,
    items, transforms, viewports) live in a memory that a loop could write
    to.  When the engine's calls are read-only, both drafts leave that
    memory and the engine's state exactly as they were: no object of the
    document, of its pages or of its items is modified.  A second run on the
    same document, from the memory the first run left, then makes the same
    calls and gives the same output as the first. *)
Theorem C6_deterministic_mutation_free (doc : pdf) (m : Memory num state) :
  read_only E ->
  let text := Text.extractTextFromPDF doc m in
  let layout := Layout.extractTextFromPDF doc m in
  final_world text = m /\
  Text.extractTextFromPDF doc (final_world text) = text /\
  final_world layout = m /\
  Layout.extractTextFromPDF doc (final_world layout) = layout.
Proof.
  intros Hro; cbv zeta.
  assert (Hwithin : engine_within eq E).
  { destruct Hro as (Hpage & Hview & Htext).
    repeat split; intros; symmetry; auto. }
  assert (Ht : final_world (Text.extractTextFromPDF doc m) = m).
  { symmetry. apply (text_only_engine_effects E eq); [congruence | congruence |
      exact Hwithin]. }
  assert (Hl : final_world (Layout.extractTextFromPDF doc m) = m).
  { symmetry. apply (layout_only_engine_effects E eq); [congruence | congruence |
      exact Hwithin]. }
  rewrite Ht, Hl. auto.
Qed.
End ObjectClaim.

Lemma C6_witness :
  let m := Objects.Sample.memory in
  let text := Objects.Text.extractTextFromPDF (E := Objects.Sample.engine) 2 m in
  let layout := Objects.Layout.extractTextFromPDF (E := Objects.Sample.engine) 2 m in
  final_world text = m /\
  Objects.Text.extractTextFromPDF (E := Objects.Sample.engine) 2 (final_world text)
  = text /\
  final_world layout = m /\
  Objects.Layout.extractTextFromPDF (E := Objects.Sample.engine) 2
                                    (final_world layout)
  = layout.
Proof.
  apply (C6_deterministic_mutation_free Objects.Sample.engine 2
           Objects.Sample.memory).
  repeat split.
Defined.

(** A loop that writes is told apart: [reversing] leaves another memory, and
    its second run gives another output than its first. *)
Example reversing_is_not_mutation_free :
  let m := Objects.Sample.memory in
  let first := Objects.Text.reversing (E := Objects.Sample.engine) 2 m in
  let second := Objects.Text.reversing (E := Objects.Sample.engine) 2
                  (final_world first) in
  final_world first <> m /\ outcome second <> outcome first.
Proof. cbv zeta. split; vm_compute; discriminate. Qed.

(** On the sample the loops over objects give what the loops over values
    give on the same pages. *)
Example objects_agree_with_values :
  let there : TextItem Z :=
    {| str := "there"; transform := transform (Scenario.hello "g_d0_f1");
       fontName := "g_d0_f1" |} in
  let d := Store.readable_document
             [(fun _ => {| width := 612%Z; height := 792%Z |},
               [Scenario.hello "g_d0_f1"; there]);
              Scenario.page2 400 "g_d0_f2"] in
  outcome (Objects.Text.extractTextFromPDF (E := Objects.Sample.engine) 2
             Objects.Sample.memory)
  = outcome (TextDraft.extractTextFromPDF (Store.load d) d) /\
  outcome (Objects.Layout.extractTextFromPDF (E := Objects.Sample.engine) 2
             Objects.Sample.memory)
  = outcome (LayoutDraft.extractTextFromPDF (Store.load d) d).
Proof. cbv zeta. split; vm_compute; reflexivity. Qed.

(** Without read-only fetches the second run may differ: on
    [counting_engine] the first run leaves the state 1 and the second run then
    reads one more item. *)
Example second_run_on_counting_engine :
  let E := Scenario.counting_engine in
  let first := @TextDraft.extractTextFromPDF _ _ _ _ E tt 0 in
  final_world first = 1 /\
  outcome (@TextDraft.extractTextFromPDF _ _ _ _ E tt (final_world first))
  <> outcome first.
Proof. cbv zeta. split; [reflexivity | vm_compute; discriminate]. Qed.

Section ConcreteScenario.
Import Store StoreRuns Trace Format.

(** C5. The two-page document of the specification, whatever the widths of
    its viewports and the font names of its items: the text draft gives
    "Hello", a blank line, "World" and the trailing separator; the layout
    draft gives the block of page 1 (height 792) with a node at (10, 12) of
    font size 12 holding "Hello", then the block of page 2 (height 500) with
    a node at (5, 400) of font size 10 holding "World". *)
Theorem C5_concrete_scenario (w1 w2 : Z) (f1 f2 : string) :
  let d := Scenario.document w1 w2 f1 f2 in
  outcome (TextDraft.extractTextFromPDF (load d) d)
  = Fulfilled ("Hello" ++ LF ++ LF ++ "World" ++ LF ++ LF) /\
  outcome (LayoutDraft.extractTextFromPDF (load d) d)
  = Fulfilled
      (page_container (Z_to_string w1) "792"
         (positioned_node "10" "12" "12" f1 "Hello")
       ++ page_container (Z_to_string w2) "500"
            (positioned_node "5" "400" "10" f2 "World")).
Proof.
  cbv zeta. unfold Scenario.document. split.
  - rewrite text_outcome_readable. reflexivity.
  - rewrite layout_outcome_readable. vm_compute. reflexivity.
Qed.

Lemma C2_witness :
  exists pre post,
    outcome (LayoutDraft.extractTextFromPDF (load Scenario.sample) Scenario.sample)
    = Fulfilled (pre ++ positioned_node "10" "12" "12" "g_d0_f1" "Hello" ++ post).
Proof.
  cbv zeta.
  pose proof (C2_layout_y_flip
                [Scenario.page1 612 "g_d0_f1"; Scenario.page2 400 "g_d0_f2"]
                (Scenario.page1 612 "g_d0_f1") (Scenario.hello "g_d0_f1")
                792%Z 780%Z
                (or_introl eq_refl) (or_introl eq_refl) eq_refl eq_refl) as Hnode.
  cbn in Hnode. cbn. exact Hnode.
Defined.

Lemma C8_witness :
  exists pre post,
    outcome (LayoutDraft.extractTextFromPDF (load Scenario.markup_document)
                                            Scenario.markup_document)
    = Fulfilled
        (pre ++ ("font-family: Times<New>&Roman;" ++ LF ++
                 spaces 36 ++ "white-space: nowrap;" ++ LF ++
                 spaces 32 ++ DQ ++ ">" ++ LF ++
                 spaces 36 ++ "a < b && c > d" ++ LF ++
                 spaces 32 ++ "</div>")
             ++ post).
Proof.
  cbv zeta.
  pose proof (C8_layout_text_verbatim
                [Scenario.page1 612 "g_d0_f1";
                 (fun _ => {| width := 918%Z; height := 1188%Z |},
                  [Scenario.world "g_d0_f2"; Scenario.markup_item])]
                (fun _ => {| width := 918%Z; height := 1188%Z |},
                 [Scenario.world "g_d0_f2"; Scenario.markup_item])
                Scenario.markup_item
                (or_intror (or_introl eq_refl))
                (or_intror (or_introl eq_refl))) as Hnode.
  cbn in Hnode. cbn. exact Hnode.
Defined.
End ConcreteScenario.

Section Scale.
Import Store StoreRuns Trace Format.
Context {num : Type} {JN : JsNumber num}.

(** C10. The layout draft asks every page for its viewport at the scale
    1.5.  On pages whose viewport is their base size times the scale, a
    block declares 1.5 times the base width and height and an item's top
    offset is 1.5 times the base height minus [transform[5]], whereas
    [transform[4]], [transform[5]] and [transform[0]] enter the node as they
    are in the item, unscaled. *)
Theorem C10_layout_scale (times : Q -> num -> num)
    (xs : list (num * num * list (TextItem num))) :
  let cs := map (fun x => scaled_contents times (fst (fst x)) (snd (fst x)) (snd x))
                xs in
  let d := readable_document cs in
  let o := LayoutDraft.extractTextFromPDF (load d) d in
  issued (trace_of o)
  = flat_map (fun j => [KGetPage j; KGetViewport {| scale := 1.5%Q |};
                        KGetTextContent])
             (seq 1 (List.length xs)) /\
  outcome o
  = Fulfilled
      (String.concat EmptyString
         (map (fun x =>
                 page_container
                   (num_to_string (times 1.5%Q (fst (fst x))))
                   (num_to_string (times 1.5%Q (snd (fst x))))
                   (String.concat EmptyString
                      (map (fun it =>
                              positioned_node
                                (num_to_string (t4 (transform it)))
                                (num_to_string
                                   (num_sub (times 1.5%Q (snd (fst x)))
                                            (t5 (transform it))))
                                (num_to_string (t0 (transform it)))
                                (fontName it) (str it))
                           (snd x))))
              xs)).
Proof.
  cbv zeta.
  assert (Hout :
    outcome (LayoutDraft.extractTextFromPDF
               (load (readable_document
                  (map (fun x => scaled_contents times (fst (fst x))
                                   (snd (fst x)) (snd x)) xs)))
               (readable_document
                  (map (fun x => scaled_contents times (fst (fst x))
                                   (snd (fst x)) (snd x)) xs)))
    = Fulfilled
        (String.concat EmptyString
           (map (fun x =>
                   page_block
                     (fst (scaled_contents times (fst (fst x)) (snd (fst x)) (snd x))
                          LayoutDraft.viewport_params)
                     (snd x))
                xs))).
  { rewrite layout_outcome_readable, map_map. reflexivity. }
  split.
  - pose proof (layout_pages_fetched_sequentially doc_engine
                  (load (readable_document
                     (map (fun x => scaled_contents times (fst (fst x))
                                      (snd (fst x)) (snd x)) xs)))
                  (readable_document
                     (map (fun x => scaled_contents times (fst (fst x))
                                      (snd (fst x)) (snd x)) xs)))
      as (_ & _ & Hfull).
    cbv zeta in Hfull. rewrite Hout in Hfull. rewrite Hfull.
    unfold layout_schedule, load, readable_document, document_of.
    cbn [numPages doc_engine pageCount].
    now rewrite !length_map.
  - rewrite Hout. reflexivity.
Qed.
End Scale.

(** A US Letter page: the block is 918 x 1188 (1.5 times 612 x 792), while
    the item of transform [12,0,0,12,10,780] stays at left 10 and font size
    12, and its top is 1188 - 780 = 408. *)
Example letter_page_layout :
  outcome (LayoutDraft.extractTextFromPDF (Store.load Scenario.letter_document)
                                          Scenario.letter_document)
  = Fulfilled
      (Format.page_container "918" "1188"
         (Format.positioned_node "10" "408" "12" "g_d0_f1" "Hello")).
Proof. vm_compute. reflexivity. Qed.

(** The decimal numerals of integer-valued numbers. *)
Example Z_to_string_examples :
  Z_to_string 0 = "0" /\ Z_to_string 792 = "792" /\ Z_to_string (-12) = "-12".
Proof. repeat split. Qed.

(** * Further properties of the page loops *)

Section ScheduleFacts.
Import Trace.
Context {page : Type}.

Lemma fetched_indices_issued (tr : list (Event page)) :
  fetched_indices tr = requested_pages (issued tr).
Proof.
  induction tr as [|ev tr IH]; [reflexivity|].
  destruct ev as [[j|p params|p]|c]; cbn; now rewrite ?IH.
Qed.

Lemma requested_pages_app (l1 l2 : list CallKind) :
  requested_pages (l1 ++ l2) = (requested_pages l1 ++ requested_pages l2)%list.
Proof.
  induction l1 as [|k l1 IH]; [reflexivity|].
  destruct k; cbn; now rewrite ?IH.
Qed.

Lemma requested_text_schedule (i n : nat) :
  requested_pages (text_schedule i n) = seq i n.
Proof.
  revert i; induction n as [|n IH]; intros i; [reflexivity|].
  rewrite text_schedule_S. cbn. now rewrite IH.
Qed.

Lemma requested_layout_schedule (i n : nat) :
  requested_pages (layout_schedule i n) = seq i n.
Proof.
  revert i; induction n as [|n IH]; intros i; [reflexivity|].
  rewrite layout_schedule_S. cbn. now rewrite IH.
Qed.

Lemma layout_schedule_length (i n : nat) :
  List.length (layout_schedule i n) = 3 * n.
Proof.
  revert i; induction n as [|n IH]; intros i; [reflexivity|].
  rewrite layout_schedule_S. cbn [List.length]. rewrite IH. lia.
Qed.

(** The first elements of an interval are an interval. *)
Lemma seq_prefix (i n : nat) (l rest : list nat) :
  seq i n = (l ++ rest)%list -> l = seq i (List.length l) /\ List.length l <= n.
Proof.
  revert i n; induction l as [|x l IH]; intros i n Heq; cbn.
  - split; [reflexivity | lia].
  - destruct n as [|n]; [discriminate|].
    cbn in Heq. injection Heq as <- Heq.
    destruct (IH _ _ Heq) as [Hl Hn].
    split; [now rewrite <- Hl | lia].
Qed.

(** The pages requested by a trace that follows a schedule over the pages
    [i], ..., [i + n - 1]. *)
Lemma follows_pages {A : Type} (sched : list CallKind) (i n : nat)
    (tr : list (Event page)) (r : Settled A) :
  requested_pages sched = seq i n ->
  follows sched tr r ->
  fetched_indices tr = seq i (List.length (fetched_indices tr)) /\
  List.length (fetched_indices tr) <= n /\
  match r with
  | Fulfilled _ => List.length (fetched_indices tr) = n
  | Rejected _ => True
  end.
Proof.
  intros Hsched (_ & (rest & Hrest) & Hfull).
  rewrite fetched_indices_issued.
  rewrite Hrest, requested_pages_app in Hsched.
  symmetry in Hsched. destruct (seq_prefix _ _ _ _ Hsched) as [Hl Hn].
  split; [exact Hl | split; [exact Hn|]].
  destruct r as [a|e]; [|exact I].
  rewrite Hfull, Hrest, requested_pages_app.
  rewrite Hrest in Hfull.
  assert (Hnil : rest = []).
  { apply (f_equal (@List.length _)) in Hfull.
    rewrite length_app in Hfull. destruct rest; [reflexivity | cbn in Hfull; lia]. }
  subst rest. rewrite app_nil_r in *.
  rewrite <- Hsched. now rewrite length_seq.
Qed.
End ScheduleFacts.

Section MoreOnAnyEngine.
Import Trace.
Context {num : Type} {JN : JsNumber num}.
Context {world pdf page : Type} (E : PdfEngine num world pdf page).

(** On every engine and from every state, both drafts request the pages
    1, 2, ..., k in that order for some k that is at most [numPages]: no
    index outside 1..[numPages] is ever requested and no page is requested
    twice; when the extraction is fulfilled, k is [numPages]. *)
Lemma pages_requested_in_range (doc : pdf) (w : world) :
  let text := TextDraft.extractTextFromPDF doc w in
  let layout := LayoutDraft.extractTextFromPDF doc w in
  let requested := fun o : world * list (Event page) * Settled string =>
    fetched_indices (trace_of o) in
  (requested text = seq 1 (List.length (requested text)) /\
   List.length (requested text) <= numPages doc /\
   match outcome text with
   | Fulfilled _ => List.length (requested text) = numPages doc
   | Rejected _ => True
   end) /\
  (requested layout = seq 1 (List.length (requested layout)) /\
   List.length (requested layout) <= numPages doc /\
   match outcome layout with
   | Fulfilled _ => List.length (requested layout) = numPages doc
   | Rejected _ => True
   end).
Proof.
  cbv zeta. split.
  - pose proof (text_loop_follows E doc (numPages doc) 1 EmptyString w) as Hf.
    unfold TextDraft.extractTextFromPDF.
    destruct (for_pages (numPages doc) 1 (TextDraft.page_body doc) EmptyString w)
      as [[w' tr] r].
    cbn [trace_of outcome fst snd].
    exact (follows_pages _ 1 (numPages doc) tr r (requested_text_schedule _ _) Hf).
  - pose proof (layout_loop_follows E doc (numPages doc) 1 EmptyString w) as Hf.
    unfold LayoutDraft.extractTextFromPDF.
    destruct (for_pages (numPages doc) 1 (LayoutDraft.page_body doc) EmptyString w)
      as [[w' tr] r].
    cbn [trace_of outcome fst snd].
    exact (follows_pages _ 1 (numPages doc) tr r (requested_layout_schedule _ _) Hf).
Qed.

(** X1. When every page of the document can be fetched and read in the
    state at hand, and these calls leave the state alone, both drafts are
    fulfilled, leave the state as it was and request exactly the pages 1, 2,
    ..., [numPages], each once and in that order, with 2 N calls in the text
    draft and 3 N in the layout draft. *)
Theorem readable_pages_fetched_once (doc : pdf) (w : world) :
  Protocol.readable_at doc w ->
  let text := TextDraft.extractTextFromPDF doc w in
  let layout := LayoutDraft.extractTextFromPDF doc w in
  ((exists t, outcome text = Fulfilled t) /\
   final_world text = w /\
   fetched_indices (trace_of text) = seq 1 (numPages doc) /\
   List.length (issued (trace_of text)) = 2 * numPages doc) /\
  ((exists l, outcome layout = Fulfilled l) /\
   final_world layout = w /\
   fetched_indices (trace_of layout) = seq 1 (numPages doc) /\
   List.length (issued (trace_of layout)) = 3 * numPages doc).
Proof.
  intros Hread; cbv zeta.
  assert (Hrange : forall j, 1 <= j < 1 + numPages doc ->
            exists pg tc, getPage doc j w = (w, Fulfilled pg) /\
                          getTextContent pg w = (w, Fulfilled tc) /\
                          forall params, fst (getViewport pg params w) = w).
  { intros j Hj. apply Hread. lia. }
  split.
  - destruct (text_loop_readable E doc (numPages doc) 1 EmptyString w Hrange)
      as (tr & t & Hrun & Hfetched & Hlen).
    unfold TextDraft.extractTextFromPDF. rewrite Hrun.
    cbn [outcome final_world trace_of fst snd]. eauto.
  - destruct (layout_loop_readable E doc (numPages doc) 1 EmptyString w Hrange)
      as (tr & t & Hrun & Hfetched & Hlen).
    unfold LayoutDraft.extractTextFromPDF. rewrite Hrun.
    cbn [outcome final_world trace_of fst snd]. eauto.
Qed.

(** X2. On every engine and from every state the layout draft makes its
    engine calls strictly one after the other.  Its trace is exactly
    getPage(1), getViewport at scale 1.5 and getTextContent on the page just
    fetched, getPage(2), ... in ascending order, each call made in the state
    the call before it left; the run goes on to the next page as long as the
    fetches are fulfilled, stops at the first rejected call and is fulfilled
    exactly when all N pages were done, after 3 N calls.  No two calls are
    ever in flight. *)
Theorem layout_calls_in_schedule (doc : pdf) (w : world) :
  let o := LayoutDraft.extractTextFromPDF doc w in
  let schedule :=
    flat_map (fun i => [KGetPage i; KGetViewport {| scale := 1.5%Q |};
                        KGetTextContent])
             (seq 1 (numPages doc)) in
  Protocol.layout_run doc (numPages doc) 1 w
                      (trace_of o) (final_world o) (rejection (outcome o)) /\
  sequential (trace_of o) /\
  max_in_flight 0 (trace_of o) <= 1 /\
  (exists rest, schedule = (issued (trace_of o) ++ rest)%list) /\
  match outcome o with
  | Fulfilled _ =>
      issued (trace_of o) = schedule /\
      List.length (issued (trace_of o)) = 3 * numPages doc
  | Rejected _ => True
  end.
Proof.
  cbv zeta.
  destruct (layout_pages_fetched_sequentially E doc w) as (Hseq & Hpre & Hfull).
  split.
  { pose proof (layout_loop_protocol E doc (numPages doc) 1 EmptyString w) as Hp.
    unfold LayoutDraft.extractTextFromPDF.
    now destruct (for_pages (numPages doc) 1 (LayoutDraft.page_body doc)
                            EmptyString w) as [[w' tr] r]. }
  split; [exact Hseq|].
  split; [now apply sequential_in_flight|].
  split; [exact Hpre|].
  destruct (outcome (LayoutDraft.extractTextFromPDF doc w)) as [a|e]; [|exact I].
  split; [exact Hfull|].
  rewrite Hfull. apply layout_schedule_length.
Qed.
End MoreOnAnyEngine.

Section MoreOnStore.
Import Store StoreRuns Trace Format.
Context {num : Type} {JN : JsNumber num}.

Lemma fold_pages_success (render : Page num -> TextContent num -> string)
    (d : Document num) (acc : string) :
  first_failure d = None -> exists t, fold_pages render d acc = Fulfilled t.
Proof.
  revert acc; induction d as [|r d IH]; intros acc; cbn.
  - intros _. now exists acc.
  - destruct r as [p|e]; [|discriminate].
    destruct (textContent p) as [tc|e]; [|discriminate].
    destruct (first_failure d) as [[k e]|]; [discriminate|].
    intros _. now apply IH.
Qed.

(** X3. On a stored document an extraction is fulfilled exactly when no
    fetch fails, and the two drafts end alike: both are fulfilled, or both
    reject with the error of the first failing fetch. *)
Theorem drafts_end_alike (d : Document num) :
  let text := outcome (TextDraft.extractTextFromPDF (load d) d) in
  let layout := outcome (LayoutDraft.extractTextFromPDF (load d) d) in
  match first_failure d with
  | None => (exists t, text = Fulfilled t) /\ (exists l, layout = Fulfilled l)
  | Some (_, e) => text = Rejected e /\ layout = Rejected e
  end.
Proof.
  cbv zeta. rewrite text_run, layout_run. cbn [outcome snd].
  destruct (first_failure d) as [[k e]|] eqn:Hd.
  - split; now apply (fold_pages_failure _ d _ k).
  - split; now apply fold_pages_success.
Qed.

(** X4. Extraction goes page by page: the output for a document made of the
    pages of one readable document followed by the pages of another is the
    output for the first followed by the output for the second, in both
    drafts; the shift of the page indices does not show. *)
Theorem outputs_concatenate (cs1 cs2 : list (PageContents num)) :
  let text := fun cs =>
    outcome (TextDraft.extractTextFromPDF (load (readable_document cs))
                                          (readable_document cs)) in
  let layout := fun cs =>
    outcome (LayoutDraft.extractTextFromPDF (load (readable_document cs))
                                            (readable_document cs)) in
  (exists t1 t2, text cs1 = Fulfilled t1 /\ text cs2 = Fulfilled t2 /\
                 text (cs1 ++ cs2)%list = Fulfilled (t1 ++ t2)) /\
  (exists l1 l2, layout cs1 = Fulfilled l1 /\ layout cs2 = Fulfilled l2 /\
                 layout (cs1 ++ cs2)%list = Fulfilled (l1 ++ l2)).
Proof.
  cbv zeta. split.
  - rewrite !text_outcome_readable. do 2 eexists.
    split; [reflexivity | split; [reflexivity|]].
    now rewrite map_app, concat_app_nil.
  - rewrite !layout_outcome_readable. do 2 eexists.
    split; [reflexivity | split; [reflexivity|]].
    now rewrite map_app, concat_app_nil.
Qed.

Lemma length_append (a b : string) :
  String.length (a ++ b) = String.length a + String.length b.
Proof. induction a as [|c a IH]; cbn; [reflexivity | now rewrite IH]. Qed.

Lemma text_length_bound (cs : list (PageContents num)) :
  2 * List.length cs
  <= String.length
       (String.concat EmptyString
          (map (fun c => page_segment (snd c) ++ page_separator) cs)).
Proof.
  induction cs as [|c cs IH]; [cbn; lia|].
  cbn [map List.length]. rewrite concat_nil_cons, !length_append.
  change (String.length page_separator) with 2. lia.
Qed.

Lemma text_itemless (vs : list (ViewportParams -> Viewport num)) :
  String.concat EmptyString
    (map (fun c : PageContents num => page_segment (snd c) ++ page_separator)
         (map itemless vs))
  = String.concat EmptyString (repeat (LF ++ LF) (List.length vs)).
Proof.
  induction vs as [|v vs IH]; [reflexivity|].
  cbn [map List.length repeat]. rewrite !concat_nil_cons, IH. reflexivity.
Qed.

(** X5. Every page of a readable document adds at least the two line feeds
    to the text output, so the output of N pages has at least 2 N
    characters; pages without text items add nothing else: a document of N
    such pages gives 2 N line feeds, not the empty string. *)
Theorem text_of_itemless_pages (cs : list (PageContents num))
    (vs : list (ViewportParams -> Viewport num)) :
  let text := fun cs =>
    outcome (TextDraft.extractTextFromPDF (load (readable_document cs))
                                          (readable_document cs)) in
  (exists t, text cs = Fulfilled t /\ 2 * List.length cs <= String.length t) /\
  text (map itemless vs)
  = Fulfilled (String.concat EmptyString (repeat (LF ++ LF) (List.length vs))).
Proof.
  cbv beta zeta. split; rewrite text_outcome_readable.
  - eexists. split; [reflexivity | apply text_length_bound].
  - now rewrite text_itemless.
Qed.

(** X6. The text draft reads nothing but the texts: two readable documents
    whose pages hold the same texts in the same order give the same text
    output, whatever their viewports, transforms and font names. *)
Theorem text_depends_on_texts_only (cs1 cs2 : list (PageContents num)) :
  page_texts cs1 = page_texts cs2 ->
  outcome (TextDraft.extractTextFromPDF (load (readable_document cs1))
                                        (readable_document cs1))
  = outcome (TextDraft.extractTextFromPDF (load (readable_document cs2))
                                          (readable_document cs2)).
Proof.
  intros Htexts. rewrite !text_outcome_readable. f_equal. f_equal.
  assert (Hmap : forall cs : list (PageContents num),
             map (fun c => page_segment (snd c) ++ page_separator) cs
             = map (fun ts => join " " ts ++ page_separator) (page_texts cs)).
  { intros cs. unfold page_texts. now rewrite map_map. }
  now rewrite !Hmap, Htexts.
Qed.

Lemma item_node_same (H : num) (a b : TextItem num) :
  same_placement a b -> item_node H a = item_node H b.
Proof.
  intros (Hs & Hf & H0 & H4 & H5). unfold item_node.
  now rewrite Hs, Hf, H0, H4, H5.
Qed.

Lemma page_block_same (a b : PageContents num) :
  same_layout_input a b ->
  page_block (fst a LayoutDraft.viewport_params) (snd a)
  = page_block (fst b LayoutDraft.viewport_params) (snd b).
Proof.
  intros [Hvp Hitems]. rewrite Hvp. unfold page_block. do 2 f_equal.
  induction Hitems as [|x y la lb Hxy _ IH]; [reflexivity|].
  cbn [map]. now rewrite (item_node_same _ x y Hxy), IH.
Qed.

(** X7. The layout draft reads of an item its text, its font name and the
    entries 0, 4 and 5 of its transform, and of a page its viewport at scale
    1.5: two readable documents that agree on these give the same markup,
    whatever the entries 1, 2 and 3 of the transforms (rotation and skew) and
    the viewports at other scales. *)
Theorem layout_ignores_rotation (cs1 cs2 : list (PageContents num)) :
  Forall2 same_layout_input cs1 cs2 ->
  outcome (LayoutDraft.extractTextFromPDF (load (readable_document cs1))
                                          (readable_document cs1))
  = outcome (LayoutDraft.extractTextFromPDF (load (readable_document cs2))
                                            (readable_document cs2)).
Proof.
  intros Hsame. rewrite !layout_outcome_readable. do 2 f_equal.
  induction Hsame as [|a b la lb Hab _ IH]; [reflexivity|].
  cbn [map]. now rewrite (page_block_same a b Hab), IH.
Qed.
End MoreOnStore.

(** * The component *)

Section LogFacts.
Context {file page : Type}.

Lemma toasts_app (l1 l2 : list (HostEvent file page)) :
  Widget.toasts (l1 ++ l2)%list = (Widget.toasts l1 ++ Widget.toasts l2)%list.
Proof.
  induction l1 as [|ev l1 IH]; [reflexivity|].
  destruct ev; cbn; now rewrite ?IH.
Qed.


Lemma toasts_engine (tr : list (Event page)) :
  Widget.toasts (map (@EngineEvent file page) tr) = [].
Proof. induction tr as [|ev tr IH]; [reflexivity | exact IH]. Qed.

Lemma document_requests_engine (tr : list (Event page)) :
  Widget.document_requests (map (@EngineEvent file page) tr) = [].
Proof. induction tr as [|ev tr IH]; [reflexivity | exact IH]. Qed.

Lemma engine_events_engine (tr : list (Event page)) :
  Widget.engine_events (map (@EngineEvent file page) tr) = tr.
Proof. induction tr as [|ev tr IH]; [reflexivity | cbn; now rewrite IH]. Qed.

Lemma file_read_engine (f : file) (tr : list (Event page)) :
  ~ In (FileRead f) (map (@EngineEvent file page) tr).
Proof.
  induction tr as [|ev tr IH]; cbn; [tauto|].
  intros [Habs|Hin]; [discriminate | now apply IH].
Qed.
End LogFacts.

Section WidgetFacts.
Context {num world file pdf page : Type}.
Context {E : PdfEngine num world pdf page} {P : Platform world file pdf}.
Variable pages : pdf -> @Async world page string.

Lemma extraction_no_toast (f : file) (w : world) :
  Widget.toasts (snd (fst (Widget.extractTextFromPDF pages f w))) = [].
Proof.
  unfold Widget.extractTextFromPDF.
  destruct (readAsArrayBuffer f w) as [w1 [result|]]; [|reflexivity].
  destruct (getDocument (Widget.document_params result) w1) as [w2 [doc|error]];
    [|reflexivity].
  destruct (pages doc w2) as [[w3 tr] r]. cbn. apply toasts_engine.
Qed.


(** X8. Whatever the file and the state, [extractTextFromPDF] first reads
    the file; it asks the library for a document only when the read gave
    bytes, once, with exactly those bytes and with [disableAutoFetch] and
    [disableStream] set; it shows no toast; and when no document was asked
    for, no page is fetched and the promise rejects with
    'Failed to read file'. *)
Theorem extraction_log_discipline (f : file) (w : world) :
  match Widget.extractTextFromPDF pages f w with
  | (_, log, r) =>
      hd_error log = Some (FileRead f) /\
      Widget.toasts log = [] /\
      map data (Widget.document_requests log)
      = match snd (readAsArrayBuffer f w) with
        | ReadLoaded result => [result]
        | ReadFailed => []
        end /\
      Forall (fun params => disableAutoFetch params = true /\
                            disableStream params = true /\
                            ownerDocument params = document)
             (Widget.document_requests log) /\
      match Widget.document_requests log with
      | [] => Widget.engine_events log = [] /\
              r = Rejected {| message := "Failed to read file" |}
      | _ :: _ => True
      end
  end.
Proof.
  unfold Widget.extractTextFromPDF.
  destruct (readAsArrayBuffer f w) as [w1 [result|]]; cbn [snd].
  - destruct (getDocument (Widget.document_params result) w1) as [w2 [doc|error]].
    + destruct (pages doc w2) as [[w3 tr] r].
      cbn [app hd_error Widget.toasts Widget.document_requests map].
      rewrite toasts_engine, document_requests_engine.
      repeat split; repeat constructor.
    + cbn. repeat split; repeat constructor.
  - cbn. repeat split; constructor.
Qed.


Lemma extraction_reads_file (f f' : file) (w : world) :
  In (FileRead f') (snd (fst (Widget.extractTextFromPDF pages f w))) <-> f' = f.
Proof.
  unfold Widget.extractTextFromPDF.
  destruct (readAsArrayBuffer f w) as [w1 [result|]].
  - destruct (getDocument (Widget.document_params result) w1) as [w2 [doc|error]].
    + destruct (pages doc w2) as [[w3 tr] r]. cbn. split.
      * intros [[= ->]|[Habs|Hin]]; [reflexivity | discriminate |].
        now apply file_read_engine in Hin.
      * intros ->. now left.
    + cbn. split.
      * intros [[= ->]|[Habs|[]]]; [reflexivity | discriminate].
      * intros ->. now left.
  - cbn. split.
    + intros [[= ->]|[]]; reflexivity.
    + intros ->. now left.
Qed.


(** X10. [processPDF] shows at most one toast, and none exactly when the
    library is loaded and the extraction is fulfilled.  Without the library
    it reads no file, fetches nothing and leaves the component and the
    engine state as they were. *)
Theorem processPDF_toasts (f : file) (this : Component) (w : world) :
  match Widget.processPDF pages f this w with
  | (this', w', log) =>
      List.length (Widget.toasts log)
      = match pdfjsLib this, snd (Widget.extractTextFromPDF pages f w) with
        | Some _, Fulfilled _ => 0
        | _, _ => 1
        end /\
      match pdfjsLib this with
      | Some _ => True
      | None =>
          this' = this /\ w' = w /\
          Widget.engine_events log = [] /\ Widget.document_requests log = [] /\
          ~ In (FileRead f) log
      end
  end.
Proof.
  unfold Widget.processPDF.
  destruct (pdfjsLib this) as [lib|].
  - pose proof (extraction_no_toast f w) as Hquiet.
    destruct (Widget.extractTextFromPDF pages f w) as [[w1 log1] [text|error]];
      cbn [fst snd] in *.
    + now rewrite Hquiet.
    + rewrite toasts_app, Hquiet. split; [reflexivity | exact I].
  - cbn. repeat split. intros [Habs|[]]. discriminate.
Qed.

(** X11. The file of a [change] event is read exactly when there is one,
    its type is exactly 'application/pdf' and the library is loaded: a
    missing file, any other type (also one that differs in case only) or a
    missing library lead to no read at all. *)
Theorem file_read_iff_pdf (selected : option file) (f : file)
    (this : Component) (w : world) :
  In (FileRead f) (snd (Widget.onFileSelected pages selected this w))
  <-> (selected = Some f /\ fileType f = "application/pdf" /\ pdfjsLib this <> None).
Proof.
  unfold Widget.onFileSelected.
  destruct selected as [g|].
  2:{ cbn. split; [intros [Habs|[]]; discriminate | now intros [Habs _]]. }
  destruct (String.eqb_spec (fileType g) "application/pdf") as [Hpdf|Hother].
  2:{ cbn. split; [intros [Habs|[]]; discriminate|].
      intros ([= ->] & Hpdf & _). contradiction. }
  unfold Widget.processPDF.
  destruct (pdfjsLib this) as [lib|].
  2:{ cbn. split; [intros [Habs|[]]; discriminate | now intros (_ & _ & Habs)]. }
  pose proof (extraction_reads_file g f w) as Hread.
  destruct (Widget.extractTextFromPDF pages g w) as [[w1 log1] [text|error]];
    cbn [fst snd] in *.
  - rewrite Hread. split.
    + intros ->. repeat split; [assumption | discriminate].
    + now intros ([= ->] & _).
  - rewrite in_app_iff, Hread. split.
    + intros [->|[Habs|[Habs|[]]]]; try discriminate.
      repeat split; [assumption | discriminate].
    + intros ([= ->] & _). now left.
Qed.
End WidgetFacts.

Section LoadingFacts.
Import Widget.
Context {num world file pdf page : Type}.
Context {E : PdfEngine num world pdf page} {P : Platform world file pdf}.
Variable pages : pdf -> @Async world page string.

Lemma patch_defined (win : Window) (lib : PdfjsLib) :
  windowPdfjsLib win = Some lib ->
  Widget.patchPDFJSForLWC win
  = Fulfilled
      {| windowPdfjsLib :=
           Some {| GlobalWorkerOptions := GlobalWorkerOptions lib;
                   libOwnerDocument :=
                     Some match libOwnerDocument lib with
                          | Some owner => owner
                          | None => document
                          end |};
         hasGlobalThis := true |}.
Proof.
  intros Hlib. unfold Widget.patchPDFJSForLWC. rewrite Hlib.
  destruct win as [wl gt]; cbn in Hlib; subst wl.
  destruct lib as [src [owner|]]; destruct gt; reflexivity.
Qed.

(** X12. [patchPDFJSForLWC] throws when [window.pdfjsLib] is undefined.
    Otherwise it leaves a library with an owner document and a defined
    [globalThis]: an owner document that is already there is kept (only a
    missing one becomes the global [document]), the worker options are not
    touched, and patching again changes nothing. *)
Theorem patch_is_idempotent (win : Window) :
  match windowPdfjsLib win with
  | None => exists error, Widget.patchPDFJSForLWC win = Rejected error
  | Some lib =>
      exists win',
        Widget.patchPDFJSForLWC win = Fulfilled win' /\
        Widget.patchPDFJSForLWC win' = Fulfilled win' /\
        hasGlobalThis win' = true /\
        windowPdfjsLib win'
        = Some {| GlobalWorkerOptions := GlobalWorkerOptions lib;
                  libOwnerDocument :=
                    Some match libOwnerDocument lib with
                         | Some owner => owner
                         | None => document
                         end |}
  end.
Proof.
  destruct (windowPdfjsLib win) as [lib|] eqn:Hlib.
  - eexists. split; [exact (patch_defined win lib Hlib)|].
    split; [|split; reflexivity].
    reflexivity.
  - unfold Widget.patchPDFJSForLWC. rewrite Hlib. now eexists.
Qed.

(** Whether the component holds the library once a load has settled with
    [loaded] in the window [win]: line 23 is reached exactly when the script
    loaded and [window.pdfjsLib] is defined. *)
Lemma resume_library (loaded : Settled unit) (this : Component) (win : Window) :
  pdfjsLib (fst (fst (Widget.initializePDFJS_resume
                        (file := file) (page := page) loaded this win)))
  = match loaded, windowPdfjsLib win with
    | Fulfilled _, Some _ => Some WindowPdfjsLib
    | _, _ => pdfjsLib this
    end.
Proof.
  unfold Widget.initializePDFJS_resume.
  destruct loaded as [[]|error]; [|reflexivity].
  destruct (windowPdfjsLib win) as [lib|] eqn:Hlib; [|reflexivity].
  destruct (GlobalWorkerOptions lib) as [options|]; [|reflexivity].
  now erewrite patch_defined by reflexivity.
Qed.

(** X13. [initializePDFJS] starts by loading the script, never touches
    [isLoading] or [extractedText] and lets no error escape.  It sets
    [this.pdfjsLib] exactly when the script loaded and [window.pdfjsLib] is
    defined.  When it shows no toast the library is in place: its worker
    source is [PDFWorker], its owner document is set and [globalThis] is
    defined.  Otherwise it shows the one toast 'Failed to load PDF library'
    and leaves the window as the script left it; this also happens with
    [this.pdfjsLib] set, namely when the library has no
    [GlobalWorkerOptions]. *)
Theorem initialize_outcome (this : Component) (win : Window) :
  match Widget.initializePDFJS (file := file) (page := page) this win,
        loadScript PDF win
  with
  | (this', win', log), (win1, loaded) =>
      hd_error log = Some (ScriptLoad PDF) /\
      isLoading this' = isLoading this /\
      extractedText this' = extractedText this /\
      pdfjsLib this'
      = match loaded, windowPdfjsLib win1 with
        | Fulfilled _, Some _ => Some WindowPdfjsLib
        | _, _ => pdfjsLib this
        end /\
      match Widget.toasts log with
      | [] =>
          pdfjsLib this' = Some WindowPdfjsLib /\
          hasGlobalThis win' = true /\
          exists lib, windowPdfjsLib win' = Some lib /\
                      GlobalWorkerOptions lib
                      = Some {| workerSrc := Some PDFWorker |} /\
                      libOwnerDocument lib <> None
      | shown =>
          shown = [load_failure_toast] /\
          win' = win1 /\
          match loaded, windowPdfjsLib win1 with
          | Fulfilled _, Some lib => GlobalWorkerOptions lib = None
          | _, _ => True
          end
      end
  end.
Proof.
  unfold Widget.initializePDFJS, Widget.initializePDFJS_resume.
  destruct (loadScript PDF win) as [win1 [[]|error]].
  - destruct (windowPdfjsLib win1) as [lib|] eqn:Hlib.
    + destruct (GlobalWorkerOptions lib) as [options|] eqn:Hopt.
      * erewrite patch_defined by reflexivity. cbn.
        repeat split. eexists. repeat split. discriminate.
      * cbn. repeat split.
    + cbn. repeat split.
  - cbn. repeat split.
Qed.

Lemma renderings_without_library (n : nat) (h : Hosted) :
  pdfjsLib (component h) = None ->
  Widget.run (repeat Rendering n) h
  = ({| component := component h; window := window h;
        pendingLoads := pendingLoads h + n |},
     repeat (ScriptLoad (file := file) (page := page) PDF) n).
Proof.
  revert h; induction n as [|n IH]; intros h Hnone.
  - cbn. rewrite Nat.add_0_r. now destruct h.
  - cbn [repeat Widget.run Widget.happen]. unfold Widget.renderedCallback.
    rewrite Hnone. rewrite IH by exact Hnone. cbn.
    now rewrite Nat.add_succ_r.
Qed.

Lemma renderings_with_library (n : nat) (h : Hosted) (lib : LibRef) :
  pdfjsLib (component h) = Some lib ->
  Widget.run (file := file) (page := page) (repeat Rendering n) h = (h, []).
Proof.
  intros Hlib; induction n as [|n IH]; [reflexivity|].
  cbn [repeat Widget.run Widget.happen]. unfold Widget.renderedCallback.
  now rewrite Hlib, IH.
Qed.

(** X14. A rendering loads the script exactly when [this.pdfjsLib] is null
    at that moment, and returns with the load pending.  So [n] renderings in
    a row of a component without the library load the script [n] times,
    also while earlier loads are pending, and a component with the library
    loads nothing.  Once a pending load has settled, the next rendering
    loads the script again unless the script loaded and [window.pdfjsLib] is
    defined, be a toast shown or not. *)
Theorem renderings_load_until_library_set (n : nat) (h : Hosted) :
  Widget.run (file := file) (page := page) (repeat Rendering n) h
  = match pdfjsLib (component h) with
    | None =>
        ({| component := component h; window := window h;
            pendingLoads := pendingLoads h + n |},
         repeat (ScriptLoad PDF) n)
    | Some _ => (h, [])
    end /\
  match pdfjsLib (component h), pendingLoads h, loadScript PDF (window h) with
  | None, S _, (win1, loaded) =>
      snd (Widget.renderedCallback (file := file) (page := page)
             (fst (Widget.scriptSettled (file := file) (page := page) h)))
      = match loaded, windowPdfjsLib win1 with
        | Fulfilled _, Some _ => []
        | _, _ => [ScriptLoad PDF]
        end
  | _, _, _ => True
  end.
Proof.
  split.
  - destruct (pdfjsLib (component h)) as [lib|] eqn:Hlib.
    + now apply (renderings_with_library n h lib).
    + now apply renderings_without_library.
  - destruct (pdfjsLib (component h)) as [lib|] eqn:Hlib; [exact I|].
    destruct (pendingLoads h) as [|pending] eqn:Hpending; [exact I|].
    pose proof (resume_library (snd (loadScript PDF (window h))) (component h)
                               (fst (loadScript PDF (window h)))) as Hres.
    unfold Widget.scriptSettled, Widget.renderedCallback. rewrite Hpending.
    destruct (loadScript PDF (window h)) as [win1 loaded]. cbn [fst snd] in Hres.
    destruct (Widget.initializePDFJS_resume loaded (component h) win1)
      as [[this' win'] log]. cbn [fst snd component] in *.
    rewrite Hres, Hlib.
    destruct loaded as [[]|error]; [|reflexivity].
    now destruct (windowPdfjsLib win1).
Qed.

End LoadingFacts.

(** A library without [GlobalWorkerOptions]: the toast is shown, yet the
    component holds the library and reads the next file. *)
Example toast_with_library_set :
  let P := Desk.platform Desk.bare_script in
  let ended := Widget.initializePDFJS (P := P) (file := Desk.File)
                 (page := Store.Page Z) Desk.blank Desk.bare_window in
  Widget.toasts (snd ended) = [load_failure_toast] /\
  pdfjsLib (fst (fst ended)) = Some WindowPdfjsLib /\
  hd_error (snd (Widget.processPDF (P := P) TextDraft.extractTextFromPDF
                   Desk.pdf_file (fst (fst ended)) Scenario.sample))
  = Some (FileRead Desk.pdf_file).
Proof. vm_compute. repeat split. Qed.

Section EndToEnd.
Import Store StoreRuns Trace Format.
Context {num : Type} {JN : JsNumber num} {file : Type}.
Context {P : Platform (Document num) file DocumentProxy}.

Lemma extraction_of_stored (pages : DocumentProxy -> @Async (Document num) (Page num) string)
    (f : file) (d : Document num) (bytes : list Byte.byte) :
  readAsArrayBuffer f d = (d, ReadLoaded bytes) ->
  getDocument (Widget.document_params bytes) d = (d, Fulfilled (load d)) ->
  Widget.extractTextFromPDF pages f d
  = (final_world (pages (load d) d),
     ([FileRead f; DocumentRequested (Widget.document_params bytes)]
        ++ map EngineEvent (trace_of (pages (load d) d)))%list,
     outcome (pages (load d) d)).
Proof.
  intros Hread Hload. unfold Widget.extractTextFromPDF.
  rewrite Hread, Hload. now destruct (pages (load d) d) as [[w tr] r].
Qed.

(** X16. With the library loaded and a file that is read and parsed into a
    stored document of readable pages, [processPDF] of the text draft ends
    with [isLoading] false and the text of the pages (each page's texts
    joined with a space and followed by two line feeds) as [extractedText],
    shows no toast, leaves the document as it was and has fetched the pages
    1, ..., N. *)
Theorem processPDF_shows_text (f : file) (this : Component)
    (cs : list (PageContents num)) (bytes : list Byte.byte) :
  pdfjsLib this <> None ->
  readAsArrayBuffer f (readable_document cs)
  = (readable_document cs, ReadLoaded bytes) ->
  getDocument (Widget.document_params bytes) (readable_document cs)
  = (readable_document cs, Fulfilled (load (readable_document cs))) ->
  match Widget.processPDF TextDraft.extractTextFromPDF f this (readable_document cs)
  with
  | (this', d', log) =>
      this' = {| isLoading := false;
                 extractedText :=
                   String.concat EmptyString
                     (map (fun c => join " " (map str (snd c)) ++ (LF ++ LF)) cs);
                 pdfjsLib := pdfjsLib this |} /\
      d' = readable_document cs /\
      Widget.toasts log = [] /\
      fetched_indices (Widget.engine_events log) = seq 1 (List.length cs)
  end.
Proof.
  intros Hlib Hread Hload. unfold Widget.processPDF.
  destruct (pdfjsLib this) as [lib|]; [|contradiction].
  rewrite (extraction_of_stored _ f _ bytes Hread Hload).
  rewrite text_outcome_readable, text_run.
  cbn [final_world trace_of fst snd isLoading extractedText].
  repeat split.
  - cbn [app Widget.toasts]. apply toasts_engine.
  - cbn [app Widget.engine_events]. rewrite engine_events_engine.
    apply fetched_readable, text_calls_no_fetch.
Qed.

End EndToEnd.

Section FileErrors.
Context {num world file pdf page : Type}.
Context {E : PdfEngine num world pdf page} {P : Platform world file pdf}.
Variable pages : pdf -> @Async world page string.

End FileErrors.

(** ** The properties with a precondition, on the sample documents *)

Lemma readable_pages_fetched_once_witness :
  let d := Scenario.sample in
  let text := TextDraft.extractTextFromPDF (Store.load d) d in
  let layout := LayoutDraft.extractTextFromPDF (Store.load d) d in
  ((exists t, outcome text = Fulfilled t) /\
   final_world text = d /\
   Trace.fetched_indices (trace_of text) = [1; 2] /\
   List.length (Trace.issued (trace_of text)) = 4) /\
  ((exists l, outcome layout = Fulfilled l) /\
   final_world layout = d /\
   Trace.fetched_indices (trace_of layout) = [1; 2] /\
   List.length (Trace.issued (trace_of layout)) = 6).
Proof.
  assert (Hread : Protocol.readable_at (E := Store.doc_engine)
                    (Store.load Scenario.sample) Scenario.sample).
  { intros i Hi. cbn in Hi.
    destruct i as [|[|[|i]]]; try lia; do 2 eexists; repeat split. }
  pose proof (readable_pages_fetched_once Store.doc_engine
                (Store.load Scenario.sample) Scenario.sample Hread) as Hrun.
  vm_compute in Hrun. vm_compute. exact Hrun.
Defined.

Lemma text_depends_on_texts_only_witness :
  outcome (TextDraft.extractTextFromPDF
             (Store.load (Store.readable_document
                [Scenario.page1 612 "g_d0_f1"; Scenario.page2 400 "g_d0_f2"]))
             (Store.readable_document
                [Scenario.page1 612 "g_d0_f1"; Scenario.page2 400 "g_d0_f2"]))
  = outcome (TextDraft.extractTextFromPDF
               (Store.load (Store.readable_document
                  [Desk.turned_page1 918 "Arial"; Scenario.page2 1 "Courier"]))
               (Store.readable_document
                  [Desk.turned_page1 918 "Arial"; Scenario.page2 1 "Courier"])).
Proof.
  apply (text_depends_on_texts_only
           [Scenario.page1 612 "g_d0_f1"; Scenario.page2 400 "g_d0_f2"]
           [Desk.turned_page1 918 "Arial"; Scenario.page2 1 "Courier"]).
  reflexivity.
Defined.

Lemma layout_ignores_rotation_witness :
  outcome (LayoutDraft.extractTextFromPDF
             (Store.load (Store.readable_document [Scenario.page1 612 "g_d0_f1"]))
             (Store.readable_document [Scenario.page1 612 "g_d0_f1"]))
  = outcome (LayoutDraft.extractTextFromPDF
               (Store.load (Store.readable_document
                              [Desk.turned_page1 612 "g_d0_f1"]))
               (Store.readable_document [Desk.turned_page1 612 "g_d0_f1"])).
Proof.
  apply (layout_ignores_rotation
           [Scenario.page1 612 "g_d0_f1"] [Desk.turned_page1 612 "g_d0_f1"]).
  constructor; [|constructor].
  split; [reflexivity|].
  constructor; [|constructor].
  repeat split.
Defined.


Lemma processPDF_shows_text_witness :
  let r := Desk.process_text Desk.pdf_file (Desk.showing "earlier text")
                             Scenario.sample in
  fst (fst r)
  = {| isLoading := false;
       extractedText := "Hello" ++ LF ++ LF ++ "World" ++ LF ++ LF;
       pdfjsLib := Some WindowPdfjsLib |} /\
  snd (fst r) = Scenario.sample /\
  Widget.toasts (snd r) = [] /\
  Trace.fetched_indices (Widget.engine_events (snd r)) = [1; 2].
Proof.
  pose proof (processPDF_shows_text (P := Desk.platform Desk.lwc_script)
                Desk.pdf_file (Desk.showing "earlier text")
                [Scenario.page1 612 "g_d0_f1"; Scenario.page2 400 "g_d0_f2"]
                [Byte.x25; Byte.x50; Byte.x44; Byte.x46]
                ltac:(discriminate) eq_refl eq_refl) as Hends.
  vm_compute in Hends. vm_compute. exact Hends.
Defined.


